(** * The asynchronous document-generation workflow

    A shallow embedding of the job workflow of the handbook application:
    the job store helpers ([src/utils/supabase.ts]), the proxy route with
    its submission endpoint, job processor and status endpoint
    ([POST], [processJob], [checkJobStatus] and the HTML helpers), and the
    client poll loop ([pollJobStatus] of [src/app/page.tsx]).

    Asynchronous code is written in a small monad: a computation reads the
    outside world (database reachability, clock, generated identifiers, the
    generation webhook) from an environment indexed by an interaction
    counter, threads the job table, and ends by returning, by throwing, or
    by waiting for ever on a promise that never settles.

    What is modelled of the collaborators the code calls:
    - the table [document_jobs] is the one of the setup document: a primary
      key [job_id] drawn by [uuid_generate_v4()], [status] defaulting to
      pending, [prompt] NOT NULL, nullable [html], [project_id], [error] and
      [result], and [created_at], [updated_at] defaulting to [now()]; it
      declares no trigger;
    - a call on the Supabase client answers with data or with an error and
      throws nothing; the webhook may reject, answer, or never answer;
    - JSON.parse is not re-implemented: a response carries its text and
      what JSON.parse makes of it;
    - strings are UTF-8 byte strings, numbers read from JSON are integral. *)

From Stdlib Require Import String Ascii List ZArith Bool Lia.
From Stdlib Require Import DecimalString.
Import ListNotations.
Local Open Scope string_scope.
Set Warnings "-register-all".

(** ** Strings *)

(** The double quote character, U+0022. *)
Definition dquote : string := String (ascii_of_nat 34) EmptyString.

(** The line feed that separates the lines of a template literal. *)
Definition LF : string := String (ascii_of_nat 10) EmptyString.

(** A template literal written line by line. *)
Definition lines (l : list string) : string := String.concat LF l.

(** Number.prototype.toString for an integral number. *)
Definition string_of_Z (n : Z) : string := NilZero.string_of_int (Z.to_int n).

(** String.prototype.startsWith. *)
Definition startsWith (s p : string) : bool := String.prefix p s.

(** String.prototype.includes. *)
Fixpoint includes (s sub : string) : bool :=
  String.prefix sub s ||
  match s with
  | EmptyString => false
  | String _ rest => includes rest sub
  end.

(** One white space or line terminator at the head of a UTF-8 string, as
    String.prototype.trim strips it: TAB, LF, VT, FF, CR, SP, U+00A0,
    U+1680, U+2000..U+200A, U+2028, U+2029, U+202F, U+205F, U+3000 and
    U+FEFF.  The result is the rest of the string. *)
Definition strip_space (s : list nat) : option (list nat) :=
  match s with
  | 9 :: r | 10 :: r | 11 :: r | 12 :: r | 13 :: r | 32 :: r => Some r
  | 194 :: 160 :: r => Some r
  | 225 :: 154 :: 128 :: r => Some r
  | 226 :: 128 :: c :: r =>
      if (128 <=? c) && (c <=? 138) || (c =? 168) || (c =? 169) || (c =? 175)
      then Some r else None
  | 226 :: 129 :: 159 :: r => Some r
  | 227 :: 128 :: 128 :: r => Some r
  | 239 :: 187 :: 191 :: r => Some r
  | _ => None
  end%nat.

(** The same character read backwards, at the head of a reversed string. *)
Definition strip_space_rev (s : list nat) : option (list nat) :=
  match s with
  | 9 :: r | 10 :: r | 11 :: r | 12 :: r | 13 :: r | 32 :: r => Some r
  | 160 :: 194 :: r => Some r
  | 128 :: 154 :: 225 :: r => Some r
  | c :: 128 :: 226 :: r =>
      if (128 <=? c) && (c <=? 138) || (c =? 168) || (c =? 169) || (c =? 175)
      then Some r else None
  | 159 :: 129 :: 226 :: r => Some r
  | 128 :: 128 :: 227 :: r => Some r
  | 191 :: 187 :: 239 :: r => Some r
  | _ => None
  end%nat.

Fixpoint strip_all (strip : list nat -> option (list nat)) (fuel : nat)
  (s : list nat) : list nat :=
  match fuel with
  | O => s
  | S fuel' =>
      match strip s with
      | Some r => strip_all strip fuel' r
      | None => s
      end
  end.

Definition bytes_of_string (s : string) : list nat :=
  map nat_of_ascii (list_ascii_of_string s).

Definition string_of_bytes (l : list nat) : string :=
  string_of_list_ascii (map ascii_of_nat l).

(** String.prototype.trim. *)
Definition trim (s : string) : string :=
  let b := bytes_of_string s in
  let front := strip_all strip_space (List.length b) b in
  let back := strip_all strip_space_rev (List.length front) (rev front) in
  string_of_bytes (rev back).

(** ** JavaScript values

    The values that travel through the [any]-typed places of the code:
    what JSON.parse produces, plus [undefined].  Numbers are the integral
    ones. *)
Inductive value : Type :=
| VUndefined
| VNull
| VBool (b : bool)
| VNumber (n : Z)
| VString (s : string)
| VArray (items : list value)
| VObject (fields : list (string * value)).

(** What a [throw] carries: an Error object with its message, or some other
    value ([error instanceof Error] tells them apart). *)
Inductive exn : Type :=
| JsError (message : string)
| JsThrown (v : value).

(** ToBoolean, as [||], [?:] and [if] apply it. *)
Definition truthy (v : value) : bool :=
  match v with
  | VUndefined | VNull => false
  | VBool b => b
  | VNumber n => negb (n =? 0)%Z
  | VString s => negb (s =? "")
  | VArray _ | VObject _ => true
  end.

(** [a || b]. *)
Definition or_else (a b : value) : value := if truthy a then a else b.

Fixpoint lookup_field (fields : list (string * value)) (key : string) : value :=
  match fields with
  | [] => VUndefined
  | (k, v) :: rest => if k =? key then v else lookup_field rest key
  end.

(** The TypeError of a property read on [null] or [undefined]. *)
Definition cannot_read (v : value) (key : string) : exn :=
  JsError ("Cannot read properties of "
           ++ match v with VNull => "null" | _ => "undefined" end
           ++ " (reading '" ++ key ++ "')").

(** [v.key], for the keys the code reads ([prompt], [html], [projectId],
    [status], [error], [result]): none of them is a built-in property of a
    string, number, boolean or array. *)
Definition get (v : value) (key : string) : exn + value :=
  match v with
  | VUndefined | VNull => inl (cannot_read v key)
  | VObject fields => inr (lookup_field fields key)
  | _ => inr VUndefined
  end.

(** [v?.key]. *)
Definition get_opt (v : value) (key : string) : value :=
  match get v key with
  | inl _ => VUndefined
  | inr x => x
  end.

(** ToString, as a template literal applies it. *)
Fixpoint to_string (v : value) : string :=
  match v with
  | VUndefined => "undefined"
  | VNull => "null"
  | VBool true => "true"
  | VBool false => "false"
  | VNumber n => string_of_Z n
  | VString s => s
  | VArray items =>
      String.concat ","
        (map (fun x => match x with
                       | VUndefined | VNull => ""
                       | _ => to_string x
                       end) items)
  | VObject _ => "[object Object]"
  end.

(** [a === b] where one side is a value freshly read from a response: an
    array or an object is identical to nothing else. *)
Definition strict_eq (a b : value) : bool :=
  match a, b with
  | VUndefined, VUndefined | VNull, VNull => true
  | VBool x, VBool y => Bool.eqb x y
  | VNumber x, VNumber y => (x =? y)%Z
  | VString x, VString y => x =? y
  | _, _ => false
  end.

Definition hex_digit (n : nat) : string :=
  String.substring n 1 "0123456789abcdef".

(** One character inside a JSON string literal. *)
Definition escape_char (c : ascii) : string :=
  let n := nat_of_ascii c in
  if (n =? 34)%nat then String "\" dquote
  else if (n =? 92)%nat then "\\"
  else if (n =? 8)%nat then "\b"
  else if (n =? 12)%nat then "\f"
  else if (n =? 10)%nat then "\n"
  else if (n =? 13)%nat then "\r"
  else if (n =? 9)%nat then "\t"
  else if (n <? 32)%nat then "\u00" ++ hex_digit (n / 16) ++ hex_digit (n mod 16)
  else String c EmptyString.

Fixpoint escape (s : string) : string :=
  match s with
  | EmptyString => EmptyString
  | String c rest => escape_char c ++ escape rest
  end.

Definition quote (s : string) : string := dquote ++ escape s ++ dquote.

(** The text JSON.stringify writes for a value; [undefined] is written
    [null] inside an array and its key is left out of an object. *)
Fixpoint stringify (v : value) : string :=
  match v with
  | VUndefined | VNull => "null"
  | VBool true => "true"
  | VBool false => "false"
  | VNumber n => string_of_Z n
  | VString s => quote s
  | VArray items => "[" ++ String.concat "," (map stringify items) ++ "]"
  | VObject fields =>
      "{" ++ String.concat ","
               ((fix members (l : list (string * value)) : list string :=
                   match l with
                   | [] => []
                   | (k, VUndefined) :: rest => members rest
                   | (k, x) :: rest => (quote k ++ ":" ++ stringify x) :: members rest
                   end) fields)
          ++ "}"
  end.

(** JSON.stringify: [undefined] has no JSON text. *)
Definition JSON_stringify (v : value) : option string :=
  match v with
  | VUndefined => None
  | _ => Some (stringify v)
  end.


(** ** The job table

    One row of [public.document_jobs].  The three nullable TEXT columns
    and the JSONB column are [None] when NULL. *)
Inductive JobStatus : Type := pending | processing | completed | failed.

Definition status_string (s : JobStatus) : string :=
  match s with
  | pending => "pending"
  | processing => "processing"
  | completed => "completed"
  | failed => "failed"
  end.

Record DocumentJob : Type := {
  job_id : string;
  status : JobStatus;
  prompt : string;
  html : option string;
  project_id : option string;
  error : option string;
  result : option value;
  created_at : Z;
  updated_at : Z
}.

(** The argument of [updateDocumentJob],
    [Partial<Omit<DocumentJob, 'job_id' | 'created_at' | 'updated_at'>>]:
    a field that is absent is [None], or [VUndefined] where the code puts a
    value read from parsed JSON. *)
Record Updates : Type := {
  upd_status : option JobStatus;
  upd_prompt : option string;
  upd_html : value;
  upd_project_id : value;
  upd_error : option string;
  upd_result : value
}.

(** The text a TEXT column takes from a JSON value: NULL for [null], the
    characters of a string, the JSON text of anything else. *)
Definition text_of_json (v : value) : option string :=
  match v with
  | VUndefined | VNull => None
  | VString s => Some s
  | _ => Some (stringify v)
  end.

(** A column after an UPDATE whose body was serialised with the value [v]
    for it: a key whose value is [undefined] is not sent. *)
Definition write_text (v : value) (old : option string) : option string :=
  match v with
  | VUndefined => old
  | _ => text_of_json v
  end.

Definition write_jsonb (v : value) (old : option value) : option value :=
  match v with
  | VUndefined => old
  | VNull => None
  | _ => Some v
  end.

Definition write_field {A : Type} (new : option A) (old : A) : A :=
  match new with
  | Some x => x
  | None => old
  end.

(** UPDATE ... SET on one row: the columns sent are overwritten, the others
    keep their value.  The table declares no trigger, so [updated_at] keeps
    the value its DEFAULT gave it at insertion. *)
Definition apply_updates (u : Updates) (j : DocumentJob) : DocumentJob :=
  {| job_id := job_id j;
     status := write_field (upd_status u) (status j);
     prompt := write_field (upd_prompt u) (prompt j);
     html := write_text (upd_html u) (html j);
     project_id := write_text (upd_project_id u) (project_id j);
     error := match upd_error u with
              | Some s => Some s
              | None => error j
              end;
     result := write_jsonb (upd_result u) (result j);
     created_at := created_at j;
     updated_at := updated_at j |}.

(** [.eq('job_id', jobId)]. *)
Definition has_id (jobId : string) (j : DocumentJob) : bool := job_id j =? jobId.

Definition update_rows (jobId : string) (u : Updates) (t : list DocumentJob)
  : list DocumentJob :=
  map (fun j => if has_id jobId j then apply_updates u j else j) t.

(** ** The outside world *)

(** One reading of the clock, with the renderings the code asks for:
    Date.now(), toLocaleString() and toISOString(). *)
Record Instant : Type := {
  epoch_ms : Z;
  toLocaleString : string;
  toISOString : string
}.

(** A settled HTTP response: its status, the body [text()] resolves to (or
    the error it rejects with), and what JSON.parse makes of that text
    ([None]: it throws a SyntaxError). *)
Record HttpResponse : Type := {
  http_status : Z;
  body_text : exn + string;
  body_json : option value
}.

(** Response.ok. *)
Definition ok (r : HttpResponse) : bool :=
  ((200 <=? http_status r) && (http_status r <=? 299))%Z.

Inductive FetchOutcome : Type :=
| FetchRejects (e : exn)
| FetchNeverSettles
| FetchResolves (r : HttpResponse).

(** Why a database round trip came back with an [error]. *)
Inductive PostgrestError : Type :=
| Unreachable
| NotNullViolation
| UniqueViolation
| NotASingleRow.

(** The calls made on the Supabase client, in order. *)
Inductive StoreCall : Type :=
| CallInsert (prompt : value)
| CallSelect (jobId : string)
| CallUpdate (jobId : string) (u : Updates).

Definition is_write (c : StoreCall) : bool :=
  match c with
  | CallSelect _ => false
  | _ => true
  end.

(** What the outside answers at each interaction: whether the database is
    unreachable, the identifier [uuid_generate_v4()] draws, the clock, and
    what the generation webhook does with a request body. *)
Record Env : Type := {
  db_unreachable : nat -> bool;
  uuid_generate_v4 : nat -> string;
  clock : nat -> Instant;
  webhook : nat -> option string -> FetchOutcome
}.

(** The state the server code runs on: the table, the number of
    interactions so far, the store calls made, and the [processJob] calls
    started and not awaited. *)
Record World : Type := {
  table : list DocumentJob;
  tick : nat;
  calls : list StoreCall;
  detached : list (string * value)
}.

(** ** The monad of asynchronous computations *)

Inductive outcome (A : Type) : Type :=
| Returned (a : A)
| Threw (e : exn)
| NeverSettles.

Arguments Returned {A} a.
Arguments Threw {A} e.
Arguments NeverSettles {A}.

Definition M (A : Type) : Type := Env -> World -> outcome A * World.

Definition ret {A : Type} (a : A) : M A := fun _ w => (Returned a, w).

Definition bind {A B : Type} (m : M A) (k : A -> M B) : M B :=
  fun e w =>
    match m e w with
    | (Returned a, w') => k a e w'
    | (Threw x, w') => (Threw x, w')
    | (NeverSettles, w') => (NeverSettles, w')
    end.

Definition throw {A : Type} (x : exn) : M A := fun _ w => (Threw x, w).

(** [try { body } catch (x) { handler }]: a promise that never settles is
    not an exception. *)
Definition try_catch {A : Type} (body : M A) (handler : exn -> M A) : M A :=
  fun e w =>
    match body e w with
    | (Threw x, w') => handler x e w'
    | r => r
    end.

(** A value or the exception its evaluation throws. *)
Definition lift {A : Type} (r : exn + A) : M A :=
  match r with
  | inl x => throw x
  | inr a => ret a
  end.

Declare Scope async_scope.
Delimit Scope async_scope with async.
Notation "x <- c1 ;; c2" := (bind c1 (fun x => c2))
  (at level 61, c1 at next level, right associativity) : async_scope.
Notation "c1 ;;; c2" := (bind c1 (fun _ => c2))
  (at level 61, right associativity) : async_scope.
Local Open Scope async_scope.

(** One interaction with the outside: the counter advances. *)
Definition advance (w : World) : World :=
  {| table := table w; tick := S (tick w); calls := calls w; detached := detached w |}.

Definition record_call (c : StoreCall) (w : World) : World :=
  {| table := table w; tick := tick w; calls := calls w ++ [c]; detached := detached w |}.

Definition set_table (t : list DocumentJob) (w : World) : World :=
  {| table := t; tick := tick w; calls := calls w; detached := detached w |}.

(** [new Date()]. *)
Definition new_Date : M Instant :=
  fun e w => (Returned (clock e (tick w)), advance w).

(** [await fetch(url, { method: "POST", body })] on the webhook. *)
Definition fetch_webhook (body : option string) : M HttpResponse :=
  fun e w =>
    match webhook e (tick w) body with
    | FetchRejects x => (Threw x, advance w)
    | FetchNeverSettles => (NeverSettles, advance w)
    | FetchResolves r => (Returned r, advance w)
    end.

(** ** The Supabase client on [document_jobs] *)

(** [insert({ prompt }).select().single()]: the row gets the column
    defaults; the insertion fails when the database is unreachable, when
    [prompt] is NULL, or when the identifier drawn is already a key. *)
Definition supabase_insert (prompt : value) : M (PostgrestError + DocumentJob) :=
  fun e w =>
    let t := tick w in
    let w1 := advance (record_call (CallInsert prompt) w) in
    if db_unreachable e t then (Returned (inl Unreachable), w1)
    else match text_of_json prompt with
         | None => (Returned (inl NotNullViolation), w1)
         | Some p =>
             let id := uuid_generate_v4 e t in
             if existsb (has_id id) (table w) then (Returned (inl UniqueViolation), w1)
             else
               let row := {| job_id := id; status := pending; prompt := p;
                             html := None; project_id := None; error := None;
                             result := None;
                             created_at := epoch_ms (clock e t);
                             updated_at := epoch_ms (clock e t) |} in
               (Returned (inr row), set_table (table w ++ [row]) w1)
         end.

(** [.single()]: an error unless exactly one row came back. *)
Definition single (rows : list DocumentJob) : PostgrestError + DocumentJob :=
  match rows with
  | [row] => inr row
  | _ => inl NotASingleRow
  end.

(** [select('*').eq('job_id', jobId).single()]. *)
Definition supabase_select_single (jobId : string) : M (PostgrestError + DocumentJob) :=
  fun e w =>
    let w1 := advance (record_call (CallSelect jobId) w) in
    if db_unreachable e (tick w) then (Returned (inl Unreachable), w1)
    else (Returned (single (filter (has_id jobId) (table w))), w1).

(** [update(updates).eq('job_id', jobId)]: the error, if any. *)
Definition supabase_update (jobId : string) (u : Updates) : M (option PostgrestError) :=
  fun e w =>
    let w1 := advance (record_call (CallUpdate jobId u) w) in
    if db_unreachable e (tick w) then (Returned (Some Unreachable), w1)
    else (Returned None, set_table (update_rows jobId u (table w)) w1).

(** ** [src/utils/supabase.ts] *)

Definition createDocumentJob (prompt : value) : M (option DocumentJob) :=
  r <- supabase_insert prompt ;;
  match r with
  | inl _ => ret None
  | inr data => ret (Some data)
  end.

Definition getDocumentJob (jobId : string) : M (option DocumentJob) :=
  r <- supabase_select_single jobId ;;
  match r with
  | inl _ => ret None
  | inr data => ret (Some data)
  end.

Definition updateDocumentJob (jobId : string) (updates : Updates) : M bool :=
  r <- supabase_update jobId updates ;;
  match r with
  | Some _ => ret false
  | None => ret true
  end.

(** ** The proxy route: HTML helpers *)

(** The template of [createFallbackHtml] at one reading of the clock. *)
Definition fallback_document (prompt errorMessage : string) (now : Instant) : string :=
  lines [
    "";
    "    <div>";
    "      <h1>Sample Document</h1>";
    "      <p>This is a fallback document generated because we couldn't process your request properly.</p>";
    "      " ++ (if negb (errorMessage =? "")
                 then "<p><strong>Error:</strong> " ++ errorMessage ++ "</p>"
                 else "");
    "      <p>Your prompt was: " ++ dquote ++ prompt ++ dquote ++ "</p>";
    "      <hr>";
    "      <p>Generated at: " ++ toLocaleString now ++ "</p>";
    "    </div>";
    "  " ].

(** [createFallbackHtml(prompt = "", errorMessage = "")]: a call that
    leaves an argument out passes the empty string for it. *)
Definition createFallbackHtml (prompt errorMessage : string) : M string :=
  now <- new_Date ;;
  ret (fallback_document prompt errorMessage now).

Definition isHtmlContent (text : string) : bool :=
  startsWith (trim text) "<!DOCTYPE" ||
  startsWith (trim text) "<html" ||
  (includes text "<" && includes text ">").

(** The template of [createLoadingHtml] at one reading of the clock. *)
Definition loading_document (prompt : string) (now : Instant) : string :=
  lines [
    "";
    "    <div>";
    "      <h1>Processing Your Request</h1>";
    "      <div style=" ++ dquote ++ "margin: 20px 0; padding: 15px; border-left: 4px solid #3498db; background-color: #f8f9fa;" ++ dquote ++ ">";
    "        <p>We're working on generating your document from the prompt:</p>";
    "        <p><em>" ++ dquote ++ prompt ++ dquote ++ "</em></p>";
    "      </div>";
    "      ";
    "      <div style=" ++ dquote ++ "margin: 20px 0; text-align: center;" ++ dquote ++ ">";
    "        <div style=" ++ dquote ++ "display: inline-block; width: 50px; height: 50px; border: 5px solid #f3f3f3; ";
    "                    border-top: 5px solid #3498db; border-radius: 50%; animation: spin 1s linear infinite;" ++ dquote ++ "></div>";
    "        <p>This may take up to 2 minutes to complete...</p>";
    "        <style>";
    "          @keyframes spin {";
    "            0% { transform: rotate(0deg); }";
    "            100% { transform: rotate(360deg); }";
    "          }";
    "        </style>";
    "      </div>";
    "      ";
    "      <p>The system is working on your document. Please wait while we process your request.</p>";
    "      <hr>";
    "      <p>Started at: " ++ toLocaleString now ++ "</p>";
    "    </div>";
    "  " ].

Definition createLoadingHtml (prompt : string) : M string :=
  now <- new_Date ;;
  ret (loading_document prompt now).

(** ** The proxy route: the handlers *)

(** What [NextResponse.json(body, { status })] sends. *)
Record Response : Type := {
  status_code : Z;
  payload : value
}.

Definition NextResponse_json (body : value) (status : Z) : Response :=
  {| status_code := status; payload := body |}.

(** A nullable column as the client library hands it to the code. *)
Definition column (c : option string) : value :=
  match c with
  | Some s => VString s
  | None => VNull
  end.

(** [c || d] for a nullable text column [c]. *)
Definition column_or (c : option string) (d : string) : string :=
  match c with
  | Some s => if s =? "" then d else s
  | None => d
  end.

(** [c || await d] where [d] has effects: it runs only when [c] is NULL or
    empty. *)
Definition column_or_else (c : option string) (d : M string) : M string :=
  match c with
  | Some s => if s =? "" then d else ret s
  | None => d
  end.

Definition checkJobStatus (jobId : string) : M Response :=
  job <- getDocumentJob jobId ;;
  match job with
  | None =>
      ret (NextResponse_json
             (VObject [("error", VString "Job not found");
                       ("status", VString "not_found")]) 404)
  | Some job =>
      match status job with
      | pending | processing =>
          h <- column_or_else (html job) (createLoadingHtml (prompt job)) ;;
          ret (NextResponse_json
                 (VObject [("status", VString (status_string (status job)));
                           ("message", VString "Your request is still being processed");
                           ("html", VString h);
                           ("projectId",
                            VString (column_or (project_id job) ("pending-" ++ jobId)))])
                 200)
      | failed =>
          h <- column_or_else (html job)
                 (createFallbackHtml (prompt job) (column_or (error job) "Unknown error")) ;;
          ret (NextResponse_json
                 (VObject [("status", VString "failed");
                           ("error", VString (column_or (error job) "Unknown error"));
                           ("html", VString h);
                           ("projectId",
                            VString (column_or (project_id job) ("failed-" ++ jobId)))])
                 200)
      | completed =>
          ret (NextResponse_json
                 (VObject [("status", VString "completed");
                           ("result", match result job with
                                      | Some r => r
                                      | None => VNull
                                      end);
                           ("html", column (html job));
                           ("projectId",
                            VString (column_or (project_id job) ("completed-" ++ jobId)))])
                 200)
      end
  end.

(** [error instanceof Error ? error.message : 'Unknown error']. *)
Definition message_of (error : exn) : string :=
  match error with
  | JsError m => m
  | JsThrown _ => "Unknown error"
  end.

(** [JSON.parse(responseText)] on the body of a response. *)
Definition JSON_parse (r : HttpResponse) : M value :=
  match body_json r with
  | Some v => ret v
  | None => throw (JsError "Unexpected token in JSON")
  end.

(** The object literals [processJob] passes to [updateDocumentJob]. *)
Definition processing_update : Updates :=
  {| upd_status := Some processing; upd_prompt := None; upd_html := VUndefined;
     upd_project_id := VUndefined; upd_error := None; upd_result := VUndefined |}.

Definition completed_json_update (jsonData jsonData_html jsonData_projectId : value)
  : Updates :=
  {| upd_status := Some completed; upd_prompt := None;
     upd_html := jsonData_html;
     upd_project_id := jsonData_projectId;
     upd_error := None;
     upd_result := jsonData |}.

Definition completed_html_update (jobId responseText : string) : Updates :=
  {| upd_status := Some completed; upd_prompt := None;
     upd_html := VString responseText;
     upd_project_id := VString ("html-" ++ jobId);
     upd_error := None;
     upd_result := VObject [("html", VString responseText);
                            ("projectId", VString ("html-" ++ jobId))] |}.

Definition failed_update (jobId errorMessage fallbackHtml : string) : Updates :=
  {| upd_status := Some failed; upd_prompt := None;
     upd_html := VString fallbackHtml;
     upd_project_id := VString ("error-" ++ jobId);
     upd_error := Some errorMessage;
     upd_result := VObject [("html", VString fallbackHtml);
                            ("projectId", VString ("error-" ++ jobId))] |}.

(** The [try] block of [processJob]. *)
Definition processJob_try (jobId : string) (data : value) : M unit :=
  updateDocumentJob jobId processing_update ;;;
  response <- fetch_webhook (JSON_stringify data) ;;
  if negb (ok response)
  then throw (JsError ("Server responded with status: "
                       ++ string_of_Z (http_status response)))
  else
    responseText <- lift (body_text response) ;;
    try_catch
      (jsonData <- JSON_parse response ;;
       jsonData_html <- lift (get jsonData "html") ;;
       jsonData_projectId <- lift (get jsonData "projectId") ;;
       updateDocumentJob jobId
         (completed_json_update jsonData jsonData_html jsonData_projectId) ;;;
       ret tt)
      (fun _ =>
         if isHtmlContent responseText
         then updateDocumentJob jobId (completed_html_update jobId responseText) ;;;
              ret tt
         else throw (JsError "Invalid response format")).

(** The [catch] block of [processJob]. *)
Definition processJob_catch (jobId : string) (error : exn) : M unit :=
  job <- getDocumentJob jobId ;;
  match job with
  | Some job =>
      let errorMessage := message_of error in
      fallbackHtml <- createFallbackHtml (prompt job) errorMessage ;;
      updateDocumentJob jobId (failed_update jobId errorMessage fallbackHtml) ;;;
      ret tt
  | None => ret tt
  end.

Definition processJob (jobId : string) (data : value) : M unit :=
  try_catch (processJob_try jobId data) (processJob_catch jobId).

(** The request as the handler reads it: [searchParams.get('jobId')] and
    the outcome of [request.json()]. *)
Record NextRequest : Type := {
  searchParams_jobId : option string;
  request_json : exn + value
}.

(** [processJob(jobId, data)] called and not awaited: the call is queued
    and the caller goes on. *)
Definition start_detached (jobId : string) (data : value) : M unit :=
  fun _ w =>
    (Returned tt,
     {| table := table w; tick := tick w; calls := calls w;
        detached := detached w ++ [(jobId, data)] |}).

(** The handler of the route.  A request that carries a [jobId] is a
    status check: [checkJobStatus] throws nothing, so it makes no
    difference that its promise is returned from inside the [try]. *)
Definition POST (request : NextRequest) : M Response :=
  try_catch
    (let jobId := searchParams_jobId request in
     match jobId with
     | Some (String c rest) => checkJobStatus (String c rest)
     | _ =>
         data <- lift (request_json request) ;;
         data_prompt <- lift (get data "prompt") ;;
         let prompt := or_else data_prompt (VString "No prompt provided") in
         job <- createDocumentJob prompt ;;
         match job with
         | None => throw (JsError "Failed to create job record")
         | Some job =>
             start_detached (job_id job) data ;;;
             loading <- createLoadingHtml (to_string prompt) ;;
             ret (NextResponse_json
                    (VObject [("jobId", VString (job_id job));
                              ("status", VString "pending");
                              ("message", VString "Your request is being processed");
                              ("html", VString loading);
                              ("projectId", VString ("job-" ++ job_id job))])
                    200)
         end
     end)
    (fun error =>
       fallback <- createFallbackHtml "Error processing your request" "" ;;
       now <- new_Date ;;
       ret (NextResponse_json
              (VObject [("error", VString (message_of error));
                        ("html", VString fallback);
                        ("projectId", VString ("error-" ++ string_of_Z (epoch_ms now)))])
              200)).

(** The event loop picks up the oldest [processJob] call that was started
    and not awaited, and runs it. *)
Definition run_detached : M unit :=
  fun e w =>
    match detached w with
    | [] => (Returned tt, w)
    | (jobId, data) :: rest =>
        processJob jobId data e
          {| table := table w; tick := tick w; calls := calls w; detached := rest |}
    end.

(** ** The client poll loop ([src/app/page.tsx]) *)

(** The state of the [Home] component that the loop sets. *)
Record Home : Type := {
  generatedHtml : value;
  projectId : value;
  loading : bool;
  isSubmitted : bool
}.

(** The answer to one status request.  Every request is answered: the
    fetch rejects or resolves. *)
Inductive StatusReply : Type :=
| ReplyRejects (e : exn)
| ReplyResolves (r : HttpResponse).

(** A run of the client: the component state, the status requests sent,
    the delays waited (in milliseconds) and the clock readings taken. *)
Record Client : Type := {
  home : Home;
  requests : nat;
  waits : list Z;
  readings : nat
}.

Definition setGeneratedHtml (v : value) (c : Client) : Client :=
  {| home := {| generatedHtml := v; projectId := projectId (home c);
                loading := loading (home c); isSubmitted := isSubmitted (home c) |};
     requests := requests c; waits := waits c; readings := readings c |}.

Definition setProjectId (v : value) (c : Client) : Client :=
  {| home := {| generatedHtml := generatedHtml (home c); projectId := v;
                loading := loading (home c); isSubmitted := isSubmitted (home c) |};
     requests := requests c; waits := waits c; readings := readings c |}.

Definition setLoading (b : bool) (c : Client) : Client :=
  {| home := {| generatedHtml := generatedHtml (home c); projectId := projectId (home c);
                loading := b; isSubmitted := isSubmitted (home c) |};
     requests := requests c; waits := waits c; readings := readings c |}.

Definition setIsSubmitted (b : bool) (c : Client) : Client :=
  {| home := {| generatedHtml := generatedHtml (home c); projectId := projectId (home c);
                loading := loading (home c); isSubmitted := b |};
     requests := requests c; waits := waits c; readings := readings c |}.

Definition sent (c : Client) : Client :=
  {| home := home c; requests := S (requests c); waits := waits c;
     readings := readings c |}.

(** [await new Promise(resolve => setTimeout(resolve, ms))]. *)
Definition setTimeout (ms : Z) (c : Client) : Client :=
  {| home := home c; requests := requests c; waits := waits c ++ [ms];
     readings := readings c |}.

Definition read_clock (c : Client) : Client :=
  {| home := home c; requests := requests c; waits := waits c;
     readings := S (readings c) |}.

Definition maxAttempts : nat := 60.

(** The document shown for a failed job that came without [html]. *)
Definition error_document (error prompt : string) (now : Instant) : string :=
  lines [
    "";
    "            <div>";
    "              <h1>Error Generating Document</h1>";
    "              <p>We encountered an error: " ++ error ++ "</p>";
    "              <p>Your prompt was: " ++ dquote ++ prompt ++ dquote ++ "</p>";
    "              <hr>";
    "              <p>Time: " ++ toISOString now ++ "</p>";
    "            </div>";
    "          " ].

(** The document the [catch] of the loop shows. *)
Definition timeout_document (prompt message : string) (now : Instant) : string :=
  lines [
    "";
    "        <div>";
    "          <h1>Processing Timeout</h1>";
    "          <p>Your document request took too long to process.</p>";
    "          <p>Your prompt was: " ++ dquote ++ prompt ++ dquote ++ "</p>";
    "          <p>Error: " ++ message ++ "</p>";
    "          <hr>";
    "          <p>Time: " ++ toISOString now ++ "</p>";
    "        </div>";
    "      " ].

Section PollJobStatus.

(** What the enclosing render closes over, the answers of the status
    endpoint by request number, and the client clock by reading. *)
Variable jobId : string.
Variable prompt : string.
Variable shown : value.
Variable replies : nat -> StatusReply.
Variable client_clock : nat -> Instant.

(** The first half of [checkStatus]: the request and the reading of its
    answer into [statusData]. *)
Definition fetch_statusData (attempts : nat) : exn + value :=
  match replies attempts with
  | ReplyRejects e => inl e
  | ReplyResolves statusResponse =>
      if negb (ok statusResponse)
      then inl (JsError ("Error checking job status: "
                         ++ string_of_Z (http_status statusResponse)))
      else match body_json statusResponse with
           | None => inl (JsError "Unexpected token in JSON")
           | Some statusData => inr statusData
           end
  end.

(** [checkStatus()]: whether polling is done, or the exception thrown. *)
Definition checkStatus (attempts : nat) (c : Client) : (exn + bool) * Client :=
  let c := sent c in
  match fetch_statusData attempts with
  | inl e => (inl e, c)
  | inr statusData =>
      match get statusData "status" with
      | inl e => (inl e, c)
      | inr statusData_status =>
          if strict_eq statusData_status (VString "completed") then
            let result := get_opt statusData "result" in
            let c := setGeneratedHtml
                       (or_else (get_opt statusData "html")
                          (or_else (get_opt result "html") (VString ""))) c in
            let c := setProjectId
                       (or_else (get_opt statusData "projectId")
                          (or_else (get_opt result "projectId")
                             (VString ("job-" ++ jobId)))) c in
            let c := setLoading false c in
            let c := setIsSubmitted true c in
            (inr true, c)
          else if strict_eq statusData_status (VString "failed") then
            let html := get_opt statusData "html" in
            let '(errorHtml, c) :=
              if truthy html then (html, c)
              else (VString (error_document
                               (to_string (or_else (get_opt statusData "error")
                                             (VString "Unknown error")))
                               prompt (client_clock (readings c))),
                    read_clock c) in
            let c := setGeneratedHtml errorHtml c in
            let c := setProjectId
                       (or_else (get_opt statusData "projectId")
                          (VString ("error-" ++ jobId))) c in
            let c := setLoading false c in
            (inr true, c)
          else
            let html := get_opt statusData "html" in
            if truthy html && negb (strict_eq html shown)
            then (inr false, setGeneratedHtml html c)
            else (inr false, c)
      end
  end.

(** [while (attempts < maxAttempts) { ... }] followed by the [throw] of
    the time-out; [None] when the fuel runs out first. *)
Fixpoint poll_loop (fuel attempts : nat) (c : Client) : option ((exn + unit) * Client) :=
  match fuel with
  | O => None
  | S fuel' =>
      if (attempts <? maxAttempts)%nat then
        match checkStatus attempts c with
        | (inl e, c') => Some (inl e, c')
        | (inr true, c') => Some (inr tt, c')
        | (inr false, c') => poll_loop fuel' (S attempts) (setTimeout 2000 c')
        end
      else Some (inl (JsError "Job processing timed out after 2 minutes"), c)
  end.

(** The [catch] of [pollJobStatus]. *)
Definition poll_catch (error : exn) (c : Client) : Client :=
  let timeoutHtml := timeout_document prompt (message_of error)
                       (client_clock (readings c)) in
  let c := read_clock c in
  let c := setGeneratedHtml (VString timeoutHtml) c in
  let c := setProjectId
             (VString ("timeout-" ++ string_of_Z (epoch_ms (client_clock (readings c))))) c in
  let c := read_clock c in
  setLoading false c.

Definition pollJobStatus (fuel : nat) (c : Client) : option Client :=
  match poll_loop fuel 0 c with
  | None => None
  | Some (inr _, c') => Some c'
  | Some (inl error, c') => Some (poll_catch error c')
  end.

End PollJobStatus.

(** ** Vocabulary of the statements *)

(** The row of the table a lookup by [jobId] finds, if it finds exactly
    one. *)
Definition stored (jobId : string) (t : list DocumentJob) : option DocumentJob :=
  match single (filter (has_id jobId) t) with
  | inr row => Some row
  | inl _ => None
  end.

(** A nullable text column holds something [||] accepts. *)
Definition present (c : option string) : bool :=
  match c with
  | Some s => negb (s =? "")
  | None => false
  end.

(** The reply to a status check for this row is read off the row alone:
    the job is completed, or its stored [html] is present. *)
Definition reply_from_row (j : DocumentJob) : bool :=
  match status j with
  | completed => true
  | _ => present (html j)
  end.

(** The not-found reply of the status endpoint. *)
Definition not_found : Response :=
  NextResponse_json
    (VObject [("error", VString "Job not found"); ("status", VString "not_found")]) 404.


(** How the [try] block of [processJob] ends. *)
Inductive Attempt : Type :=
| Hangs
| Fails (error : exn)
| Completes (u : Updates).

(** The end of the [try] block read off what the webhook does with the
    request: the classification of the external response that
    [processJob] performs inline. *)
Definition attempt (jobId : string) (answer : FetchOutcome) : Attempt :=
  match answer with
  | FetchRejects x => Fails x
  | FetchNeverSettles => Hangs
  | FetchResolves r =>
      if negb (ok r)
      then Fails (JsError ("Server responded with status: "
                           ++ string_of_Z (http_status r)))
      else
        match body_text r with
        | inl x => Fails x
        | inr text =>
            let markup :=
              if isHtmlContent text
              then Completes (completed_html_update jobId text)
              else Fails (JsError "Invalid response format") in
            match body_json r with
            | None => markup
            | Some v =>
                match get v "html", get v "projectId" with
                | inr h, inr p => Completes (completed_json_update v h p)
                | _, _ => markup
                end
            end
        end
  end.

(** ** Sample runs *)

Definition sample_instant (n : nat) : Instant :=
  {| epoch_ms := 1793613600000 + 1000 * Z.of_nat n;
     toLocaleString := "11/2/2026, 10:00:0" ++ string_of_Z (Z.of_nat n) ++ " AM";
     toISOString := "2026-11-02T10:00:0" ++ string_of_Z (Z.of_nat n) ++ ".000Z" |}.

(** An outside world whose database is down at the interactions [down]
    and whose webhook always does [answer]. *)
Definition sample_env (down : list nat) (answer : FetchOutcome) : Env :=
  {| db_unreachable := fun n => existsb (Nat.eqb n) down;
     uuid_generate_v4 := fun n => "6f1c2a9e-000" ++ string_of_Z (Z.of_nat n);
     clock := sample_instant;
     webhook := fun _ _ => answer |}.

Definition empty_world : World :=
  {| table := []; tick := 0; calls := []; detached := [] |}.

Definition memo_request : NextRequest :=
  {| searchParams_jobId := None;
     request_json := inr (VObject [("prompt", VString "Write a memo")]) |}.



(** The webhook answers 200 with a memo and a project label. *)
Definition answers_memo : FetchOutcome :=
  FetchResolves
    {| http_status := 200;
       body_text := inr ("{" ++ quote "html" ++ ":" ++ quote "<h1>Memo</h1>" ++ ","
                         ++ quote "projectId" ++ ":" ++ quote "p1" ++ "}");
       body_json := Some (VObject [("html", VString "<h1>Memo</h1>");
                                   ("projectId", VString "p1")]) |}.

(** The webhook answers 500. *)
Definition answers_500 : FetchOutcome :=
  FetchResolves {| http_status := 500; body_text := inr "Internal Server Error";
                   body_json := None |}.

(** The job the first insertion of a sample run creates. *)
Definition memo_id : string := "6f1c2a9e-0000".

(** A table that holds one job, as its insertion left it. *)
Definition pending_job_world : World :=
  {| table := [ {| job_id := memo_id; status := pending; prompt := "Write a memo";
                   html := None; project_id := None; error := None; result := None;
                   created_at := 1793613600000; updated_at := 1793613600000 |} ];
     tick := 3; calls := []; detached := [] |}.

(** The world of a job that was submitted and then completed by the
    webhook's memo. *)
Definition memo_done_world : World :=
  snd ((bind (POST memo_request) (fun _ => run_detached))
         (sample_env [] answers_memo) empty_world).

(** The reply to a status check is read off the stored row alone, or there
    is no such row. *)
Definition reply_from_store (jobId : string) (t : list DocumentJob) : bool :=
  match stored jobId t with
  | Some j => reply_from_row j
  | None => true
  end.

(** A status endpoint that keeps answering [processing]. *)
Definition always_processing (n : nat) : StatusReply :=
  ReplyResolves
    {| http_status := 200;
       body_text := inr (stringify (VObject [("status", VString "processing")]));
       body_json := Some (VObject [("status", VString "processing")]) |}.

Definition fresh_client : Client :=
  {| home := {| generatedHtml := VString ""; projectId := VString "";
                loading := true; isSubmitted := false |};
     requests := 0; waits := []; readings := 0 |}.

(** The world after the write that marks the job processing and the
    request to the webhook. *)
Definition after_request (jobId : string) (e : Env) (w : World) : World :=
  advance (snd (updateDocumentJob jobId processing_update e w)).


Definition memo_data : value := VObject [("prompt", VString "Write a memo")].

(** ** How the client loop ends *)

Section PollEnds.

Variable prompt : string.
Variable replies : nat -> StatusReply.
Variable client_clock : nat -> Instant.



End PollEnds.

(** * The rest of the route and the pages

    Vocabulary for further properties of the route, and the two pages
    that talk to it: the home page ([handleSubmit] and
    [wrapContentInPages] of [src/app/page.tsx]) and the document page
    ([fetchJob] and [pollJobStatus] of [src/app/document/[id]/page.tsx]). *)

(** ** What the processor keeps *)

(** A change of rows that keeps what identifies a job: its id, its prompt
    and its two timestamps, and every row of another job. *)
Definition keeps_jobs (jobId : string) (f : DocumentJob -> DocumentJob) : Prop :=
  forall j,
    job_id (f j) = job_id j /\ prompt (f j) = prompt j /\
    created_at (f j) = created_at j /\ updated_at (f j) = updated_at j /\
    (job_id j <> jobId -> f j = j).

(** ** Bytes of a space read backwards *)

(** The bytes [128 226] read backwards: the end of a three-byte space. *)
Definition two_more (last_is_space : bool) (s : list nat) : option (list nat) :=
  match s with
  | 128 :: 226 :: r => if last_is_space then Some r else None
  | _ => None
  end%nat.

Definition ends_space (c : nat) : bool :=
  ((128 <=? c) && (c <=? 138) || (c =? 168) || (c =? 169) || (c =? 175))%nat.

(** ** The home page: submission and export helpers ([src/app/page.tsx]) *)

(** The marker of a page container, [class="a4-page"]. *)
Definition a4_page_class : string := "class=" ++ dquote ++ "a4-page" ++ dquote.

Definition wrapContentInPages (html : string) : string :=
  if html =? "" then ""
  else if includes html a4_page_class || includes html "page-break" then html
  else "<div " ++ a4_page_class ++ ">" ++ html ++ "</div>".

(** What [handleSubmit] acts on: the component state, the request bodies
    sent to [/api/proxy], the address the window was sent to, the alerts
    shown and the clock readings taken. *)
Record Browser : Type := {
  view : Home;
  posted : list (option string);
  location_href : option string;
  alerts : list string;
  clock_reads : nat
}.

Definition set_view (h : Home) (b : Browser) : Browser :=
  {| view := h; posted := posted b; location_href := location_href b;
     alerts := alerts b; clock_reads := clock_reads b |}.

(** The document [handleSubmit] shows when the submission fails. *)
Definition submit_fallback_document (prompt : string) (now : Instant) : string :=
  lines [
    "";
    "        <div>";
    "          <h1>Generated Document</h1>";
    "          <p>We encountered an issue processing your request, but we've created this document instead.</p>";
    "          <p>Your prompt was: " ++ dquote ++ prompt ++ dquote ++ "</p>";
    "          <hr>";
    "          <p>Generated at: " ++ toISOString now ++ "</p>";
    "        </div>";
    "      " ].

(** The [try] block of [handleSubmit] after the request is sent: the
    address to go to, or the exception thrown. *)
Definition submitted_to (submitResponse : StatusReply) : exn + string :=
  match submitResponse with
  | ReplyRejects e => inl e
  | ReplyResolves r =>
      if negb (ok r)
      then inl (JsError ("HTTP error! Status: " ++ string_of_Z (http_status r)))
      else match body_json r with
           | None => inl (JsError "Unexpected token in JSON")
           | Some initialData =>
               match get initialData "jobId" with
               | inl e => inl e
               | inr jobId =>
                   if truthy jobId
                   then inr ("/document/" ++ to_string jobId)
                   else inl (JsError "No job ID returned from server")
               end
           end
  end.

(** [handleSubmit], with the prompt of the form, the answer of the server
    to a request body, and the client clock. *)
Definition handleSubmit (prompt : string) (server : option string -> StatusReply)
  (client_clock : nat -> Instant) (b : Browser) : Browser :=
  if trim prompt =? "" then b
  else
    let h := {| generatedHtml := VString ""; projectId := VString "";
                loading := true; isSubmitted := isSubmitted (view b) |} in
    let body := JSON_stringify (VObject [("prompt", VString prompt)]) in
    match submitted_to (server body) with
    | inr address =>
        {| view := h; posted := posted b ++ [body]; location_href := Some address;
           alerts := alerts b; clock_reads := clock_reads b |}
    | inl _ =>
        let fallbackHtml :=
          submit_fallback_document prompt (client_clock (clock_reads b)) in
        {| view := {| generatedHtml := VString fallbackHtml;
                      projectId := VString ("error-" ++ string_of_Z
                                      (epoch_ms (client_clock (S (clock_reads b)))));
                      loading := false; isSubmitted := isSubmitted (view b) |};
           posted := posted b ++ [body];
           location_href := location_href b;
           alerts := alerts b ++
             ["There was an error generating the document. A fallback document has been created."];
           clock_reads := S (S (clock_reads b)) |}
    end.

(** What the browser receives when the route handler returns a response:
    its status and its payload, written and read back as JSON. *)
Definition received (r : Response) : StatusReply :=
  ReplyResolves {| http_status := status_code r;
                   body_text := inr (stringify (payload r));
                   body_json := Some (payload r) |}.

(** The request [handleSubmit] makes, as the route handler reads it. *)
Definition submission (prompt : string) : NextRequest :=
  {| searchParams_jobId := None;
     request_json := inr (VObject [("prompt", VString prompt)]) |}.

(** ** The document page ([src/app/document/[id]/page.tsx]) *)

Inductive Role : Type := user | assistant.

Record Message : Type := {
  role : Role;
  content : string
}.

(** The state of [DocumentPage] that loading and polling set. *)
Record DocumentPage : Type := {
  documentJob : option DocumentJob;
  page_loading : bool;
  page_error : option string;
  messages : list Message
}.

Definition setDocumentJob (j : DocumentJob) (p : DocumentPage) : DocumentPage :=
  {| documentJob := Some j; page_loading := page_loading p;
     page_error := page_error p; messages := messages p |}.

Definition setMessages (m : list Message) (p : DocumentPage) : DocumentPage :=
  {| documentJob := documentJob p; page_loading := page_loading p;
     page_error := page_error p; messages := m |}.

Definition setError (s : string) (p : DocumentPage) : DocumentPage :=
  {| documentJob := documentJob p; page_loading := page_loading p;
     page_error := Some s; messages := messages p |}.

Definition setPageLoading (b : bool) (p : DocumentPage) : DocumentPage :=
  {| documentJob := documentJob p; page_loading := b;
     page_error := page_error p; messages := messages p |}.

(** [fetchJob()], the effect that loads the job of the page. *)
Definition fetchJob (jobId : string) (p : DocumentPage) : M DocumentPage :=
  let p := setPageLoading true p in
  p <- try_catch
         (job <- getDocumentJob jobId ;;
          match job with
          | Some job =>
              let p := setDocumentJob job p in
              if negb (prompt job =? "")
              then ret (setMessages [ {| role := user; content := prompt job |} ] p)
              else ret p
          | None => ret (setError "Document not found" p)
          end)
         (fun _ => ret (setError "Failed to load document" p)) ;;
  ret (setPageLoading false p).





Section DocumentPagePoll.

Variable newJobId : string.
Variable currentMessages : list Message.
Variable replies : nat -> StatusReply.







End DocumentPagePoll.

(** A browser that has done nothing yet. *)
Definition fresh_browser : Browser :=
  {| view := {| generatedHtml := VString ""; projectId := VString "";
                loading := false; isSubmitted := false |};
     posted := []; location_href := None; alerts := []; clock_reads := 0 |}.

(** * Properties *)

(** ** Strings and documents *)

Lemma prefix_append (s rest : string) : String.prefix s (s ++ rest) = true.
Proof.
  induction s as [|c s IH]; simpl.
  - now destruct rest.
  - destruct (ascii_dec c c) as [_|ne]; [exact IH | now elim ne].
Qed.

Lemma prefix_append_l (s a rest : string) :
  String.prefix s a = true -> String.prefix s (a ++ rest) = true.
Proof.
  revert a; induction s as [|c s IH]; intros a H.
  - now destruct (a ++ rest).
  - destruct a as [|d a]; simpl in *; [discriminate|].
    destruct (ascii_dec c d); [now apply IH | discriminate].
Qed.

Lemma includes_here (s rest : string) : includes (s ++ rest) s = true.
Proof.
  destruct s as [|c s]; simpl.
  - now destruct rest.
  - destruct (ascii_dec c c) as [_|ne]; [|now elim ne].
    now rewrite prefix_append.
Qed.

Lemma includes_later (a b s : string) :
  includes b s = true -> includes (a ++ b) s = true.
Proof.
  intros H; induction a as [|c a IH]; simpl; [exact H|].
  rewrite IH. apply orb_true_r.
Qed.

Lemma includes_earlier (a b s : string) :
  includes a s = true -> includes (a ++ b) s = true.
Proof.
  induction a as [|c a IH]; simpl; intros H.
  - rewrite orb_false_r in H. destruct s; [now destruct b | discriminate].
  - apply orb_true_iff in H as [H|H].
    + destruct s as [|d s]; [reflexivity|].
      destruct (ascii_dec d c); [|discriminate].
      now rewrite prefix_append_l.
    + rewrite (IH H). apply orb_true_r.
Qed.

Lemma includes_line (sep l s : string) (ls : list string) :
  In l ls -> includes l s = true -> includes (String.concat sep ls) s = true.
Proof.
  intros Hin Hl; induction ls as [|x xs IH]; [contradiction|].
  destruct Hin as [->|Hin].
  - destruct xs; simpl; [exact Hl | now apply includes_earlier].
  - destruct xs as [|y ys]; [contradiction|].
    change (String.concat sep (x :: y :: ys))
      with (x ++ sep ++ String.concat sep (y :: ys)).
    apply includes_later, includes_later, IH, Hin.
Qed.

Lemma includes_empty (s : string) : includes s "" = true.
Proof. now destruct s. Qed.

(** The fallback document shows the prompt and the error message it was
    made from. *)
Lemma fallback_document_embeds (p m : string) (now : Instant) :
  includes (fallback_document p m now) p = true /\
  includes (fallback_document p m now) m = true.
Proof.
  split; unfold fallback_document, lines.
  - eapply includes_line.
    + do 5 right; left; reflexivity.
    + apply includes_later, includes_later, includes_here.
  - destruct (m =? "") eqn:E.
    + apply String.eqb_eq in E; subst m. apply includes_empty.
    + eapply includes_line.
      * do 4 right; left; reflexivity.
      * simpl negb. cbv iota. apply includes_later, includes_later, includes_here.
Qed.

Lemma fallback_document_nonempty (p m : string) (now : Instant) :
  fallback_document p m now <> "".
Proof. discriminate. Qed.



Lemma present_column_or_else (c : option string) (d : M string) :
  present c = true -> exists s, c = Some s /\ s <> "" /\ column_or_else c d = ret s.
Proof.
  destruct c as [s|]; [|discriminate]. simpl. intros H.
  exists s. destruct (s =? "") eqn:E; [discriminate|].
  apply String.eqb_neq in E. auto.
Qed.

(** ** The store helpers *)

Lemma createDocumentJob_run (p : value) (e : Env) (w : World) :
  createDocumentJob p e w =
  let w1 := advance (record_call (CallInsert p) w) in
  if db_unreachable e (tick w) then (Returned None, w1)
  else match text_of_json p with
       | None => (Returned None, w1)
       | Some text =>
           if existsb (has_id (uuid_generate_v4 e (tick w))) (table w)
           then (Returned None, w1)
           else
             let row := {| job_id := uuid_generate_v4 e (tick w); status := pending;
                           prompt := text; html := None; project_id := None;
                           error := None; result := None;
                           created_at := epoch_ms (clock e (tick w));
                           updated_at := epoch_ms (clock e (tick w)) |} in
             (Returned (Some row), set_table (table w ++ [row]) w1)
       end.
Proof.
  unfold createDocumentJob, bind, supabase_insert, ret.
  destruct (db_unreachable e (tick w)); [reflexivity|].
  destruct (text_of_json p); [|reflexivity].
  now destruct (existsb _ _).
Qed.

Lemma getDocumentJob_run (jobId : string) (e : Env) (w : World) :
  getDocumentJob jobId e w =
  (Returned (if db_unreachable e (tick w) then None else stored jobId (table w)),
   advance (record_call (CallSelect jobId) w)).
Proof.
  unfold getDocumentJob, bind, supabase_select_single, ret, stored.
  destruct (db_unreachable e (tick w)); [reflexivity|].
  now destruct (single _).
Qed.

Lemma updateDocumentJob_run (jobId : string) (u : Updates) (e : Env) (w : World) :
  updateDocumentJob jobId u e w =
  let w1 := advance (record_call (CallUpdate jobId u) w) in
  if db_unreachable e (tick w) then (Returned false, w1)
  else (Returned true, set_table (update_rows jobId u (table w)) w1).
Proof.
  unfold updateDocumentJob, bind, supabase_update, ret.
  now destruct (db_unreachable e (tick w)).
Qed.

Lemma has_id_apply_updates (jobId : string) (u : Updates) (j : DocumentJob) :
  has_id jobId (apply_updates u j) = has_id jobId j.
Proof. reflexivity. Qed.

Lemma filter_update_rows (jobId : string) (u : Updates) (t : list DocumentJob) :
  filter (has_id jobId) (update_rows jobId u t)
  = map (apply_updates u) (filter (has_id jobId) t).
Proof.
  induction t as [|j t IH]; [reflexivity|]. simpl.
  destruct (has_id jobId j) eqn:E.
  - rewrite has_id_apply_updates, E. simpl. now rewrite IH.
  - now rewrite E.
Qed.

Lemma stored_update_rows (jobId : string) (u : Updates) (t : list DocumentJob) :
  stored jobId (update_rows jobId u t) = option_map (apply_updates u) (stored jobId t).
Proof.
  unfold stored. rewrite filter_update_rows.
  destruct (filter (has_id jobId) t) as [|j [|k r]]; reflexivity.
Qed.

Lemma stored_In (jobId : string) (t : list DocumentJob) (j : DocumentJob) :
  stored jobId t = Some j -> In j t /\ job_id j = jobId.
Proof.
  unfold stored. intros H.
  destruct (filter (has_id jobId) t) as [|k [|k' r]] eqn:E; try discriminate.
  injection H as <-.
  assert (Hin : In k (filter (has_id jobId) t)) by (rewrite E; now left).
  apply filter_In in Hin as [Hin Hid]. split; [exact Hin|].
  now apply String.eqb_eq.
Qed.

Lemma stored_unknown (jobId : string) (t : list DocumentJob) :
  (forall j, In j t -> job_id j <> jobId) -> stored jobId t = None.
Proof.
  intros H. unfold stored.
  destruct (filter (has_id jobId) t) as [|k r] eqn:E; [reflexivity|].
  assert (Hin : In k (filter (has_id jobId) t)) by (rewrite E; now left).
  apply filter_In in Hin as [Hin Hid]. apply String.eqb_eq in Hid.
  now elim (H k Hin).
Qed.

(** Under the primary key a row is found by its id. *)
Lemma stored_known (jobId : string) (t : list DocumentJob) (j : DocumentJob) :
  NoDup (map job_id t) -> In j t -> job_id j = jobId -> stored jobId t = Some j.
Proof.
  intros Hnd Hin <-.
  assert (Hf : filter (has_id (job_id j)) t = [j]).
  { induction t as [|k t IH]; [contradiction|].
    inversion Hnd as [|x l Hk Hnd']; subst x l. cbn [filter].
    assert (Hnone : forall x, In x t -> job_id x <> job_id k).
    { intros x Hx E. apply Hk. rewrite <- E. now apply in_map. }
    destruct (has_id (job_id j) k) eqn:E; unfold has_id in E.
    - apply String.eqb_eq in E.
      destruct Hin as [->|Hin]; [|now elim (Hnone j Hin)].
      f_equal. destruct (filter (has_id (job_id j)) t) as [|x r] eqn:Ef; [reflexivity|].
      assert (Hx : In x (filter (has_id (job_id j)) t)) by (rewrite Ef; now left).
      apply filter_In in Hx as [Hx Hxid]. apply String.eqb_eq in Hxid.
      now elim (Hnone x Hx).
    - apply String.eqb_neq in E.
      destruct Hin as [->|Hin]; [now elim E|]. now apply IH. }
  unfold stored. now rewrite Hf.
Qed.

(** The primary key is kept by insertions and updates. *)
Lemma keys_stay_unique (e : Env) (w : World) :
  NoDup (map job_id (table w)) ->
  (forall p, NoDup (map job_id (table (snd (createDocumentJob p e w))))) /\
  (forall jobId u, NoDup (map job_id (table (snd (updateDocumentJob jobId u e w))))).
Proof.
  intros Hnd. split.
  - intros p. rewrite createDocumentJob_run. cbv zeta.
    destruct (db_unreachable e (tick w)); [exact Hnd|].
    destruct (text_of_json p); [|exact Hnd].
    destruct (existsb _ (table w)) eqn:E; [exact Hnd|].
    cbn [snd table set_table]. rewrite map_app. cbn [map job_id].
    apply NoDup_app; [exact Hnd | repeat constructor; intros [] |].
    intros x Hx [<-|[]]. apply in_map_iff in Hx as (k & Hk & Hin).
    assert (Hex : existsb (has_id (uuid_generate_v4 e (tick w))) (table w) = true).
    { apply existsb_exists. exists k. split; [exact Hin|]. now apply String.eqb_eq. }
    congruence.
  - intros jobId u. rewrite updateDocumentJob_run. cbv zeta.
    destruct (db_unreachable e (tick w)); [exact Hnd|].
    cbn [snd table set_table]. unfold update_rows. rewrite map_map.
    erewrite map_ext; [exact Hnd|].
    intros j. now destruct (has_id jobId j).
Qed.

(** The status endpoint: what it answers and that it only reads. *)
Lemma checkJobStatus_absent (jobId : string) (e : Env) (w : World) :
  fst (getDocumentJob jobId e w) = Returned None ->
  checkJobStatus jobId e w = (Returned not_found, snd (getDocumentJob jobId e w)).
Proof.
  unfold checkJobStatus, bind. destruct (getDocumentJob jobId e w) as [r w1].
  simpl. now intros ->.
Qed.

Lemma checkJobStatus_reads_only (jobId : string) (e : Env) (w : World) :
  table (snd (checkJobStatus jobId e w)) = table w /\
  detached (snd (checkJobStatus jobId e w)) = detached w /\
  (forall x, fst (checkJobStatus jobId e w) <> Threw x) /\
  fst (checkJobStatus jobId e w) <> NeverSettles /\
  forallb (fun c => negb (is_write c)) (skipn (List.length (calls w))
                                          (calls (snd (checkJobStatus jobId e w)))) = true.
Proof.
  unfold checkJobStatus, bind. rewrite getDocumentJob_run.
  assert (Hskip : skipn (List.length (calls w)) (calls w ++ [CallSelect jobId])
                  = [CallSelect jobId]).
  { rewrite skipn_app, skipn_all, Nat.sub_diag. reflexivity. }
  destruct (if db_unreachable e (tick w) then None else stored jobId (table w))
    as [job|]; [|simpl; rewrite Hskip; repeat split; congruence].
  destruct (status job); [| |simpl; rewrite Hskip; repeat split; congruence|];
    (destruct (html job) as [h|]; simpl; [destruct (h =? "")|]; simpl;
     rewrite Hskip; repeat split; congruence).
Qed.

(** C8 (as amended).  [updateDocumentJob] never throws and returns [false]
    exactly when the underlying write fails, leaving the table as it was.
    A write that succeeds merges the given fields into the rows whose
    [job_id] matches and touches no other row; a field that is not given
    keeps its value, and [job_id], [created_at] and [updated_at] keep
    theirs: [updated_at] is set by the column default at insertion only. *)
Theorem updateDocumentJob_merges_given_fields
  (e : Env) (w : World) (jobId : string) (u : Updates) :
  exists b w',
    updateDocumentJob jobId u e w = (Returned b, w') /\
    b = negb (db_unreachable e (tick w)) /\
    table w' = (if b then update_rows jobId u (table w) else table w) /\
    forall n j, nth_error (table w) n = Some j ->
      exists j', nth_error (table w') n = Some j' /\
        job_id j' = job_id j /\
        created_at j' = created_at j /\
        updated_at j' = updated_at j /\
        (job_id j <> jobId -> j' = j) /\
        (b = false -> j' = j) /\
        (b = true -> job_id j = jobId -> j' = apply_updates u j) /\
        (upd_status u = None -> status j' = status j) /\
        (forall s, b = true -> job_id j = jobId -> upd_status u = Some s -> status j' = s) /\
        (upd_prompt u = None -> prompt j' = prompt j) /\
        (upd_html u = VUndefined -> html j' = html j) /\
        (upd_project_id u = VUndefined -> project_id j' = project_id j) /\
        (upd_error u = None -> error j' = error j) /\
        (upd_result u = VUndefined -> result j' = result j).
Proof.
  rewrite updateDocumentJob_run. cbv zeta.
  destruct (db_unreachable e (tick w)); do 2 eexists;
    (split; [reflexivity|]); (split; [reflexivity|]); (split; [reflexivity|]);
    intros n j Hn; simpl.
  - exists j. repeat split; auto; discriminate.
  - unfold update_rows. rewrite nth_error_map, Hn. simpl.
    destruct (has_id jobId j) eqn:E; unfold has_id in E.
    + apply String.eqb_eq in E. eexists; split; [reflexivity|].
      repeat split; simpl; intros; try congruence;
        match goal with H : _ = _ |- _ => rewrite H; reflexivity end.
    + apply String.eqb_neq in E. exists j. repeat split; auto; congruence.
Qed.

(** C8, the claim as stated fails: a write that moves the job from pending
    to processing three seconds after its insertion leaves [updated_at] at
    the time of the insertion. *)
Lemma updated_at_not_refreshed :
  exists j w',
    updateDocumentJob memo_id processing_update
      (sample_env [] answers_memo) pending_job_world = (Returned true, w') /\
    table w' = [j] /\
    status j = processing /\
    updated_at j = 1793613600000%Z /\
    epoch_ms (clock (sample_env [] answers_memo) (tick pending_job_world))
    = 1793613603000%Z.
Proof. do 2 eexists. repeat split. Qed.

(** C9 (as amended).  [getDocumentJob] never throws.  It returns absence
    exactly when the lookup fails: the database is unreachable, or the
    table does not hold exactly one row with that id (in particular when
    it holds none; under the primary key a reachable database returns the
    row whenever there is one).  The status endpoint answers every absence
    with the not-found reply and status 404, whatever its cause, and every
    row with status 200. *)
Theorem getDocumentJob_absence (e : Env) (w : World) (jobId : string) :
  exists r w',
    getDocumentJob jobId e w = (Returned r, w') /\
    table w' = table w /\
    (r = None <-> db_unreachable e (tick w) = true \/ stored jobId (table w) = None) /\
    ((forall j, In j (table w) -> job_id j <> jobId) -> r = None) /\
    (forall j, r = Some j -> In j (table w) /\ job_id j = jobId) /\
    (forall j, NoDup (map job_id (table w)) -> db_unreachable e (tick w) = false ->
               In j (table w) -> job_id j = jobId -> r = Some j) /\
    (r = None -> fst (checkJobStatus jobId e w) = Returned not_found /\
                 status_code not_found = 404%Z) /\
    (forall j, r = Some j ->
       exists reply, fst (checkJobStatus jobId e w) = Returned reply /\
                     status_code reply = 200%Z).
Proof.
  do 2 eexists. split; [apply getDocumentJob_run|]. split; [reflexivity|].
  split; [|split; [|split; [|split; [|split]]]].
  - destruct (db_unreachable e (tick w)); split; auto.
    + intros [H|H]; [discriminate | exact H].
  - intros H. rewrite (stored_unknown _ _ H). now destruct (db_unreachable e (tick w)).
  - intros j H. destruct (db_unreachable e (tick w)); [discriminate|].
    now apply stored_In.
  - intros j Hnd -> Hin Hid. now apply stored_known.
  - intros H. split; [|reflexivity]. rewrite checkJobStatus_absent; [reflexivity|].
    rewrite getDocumentJob_run. simpl. now rewrite H.
  - intros j H. unfold checkJobStatus, bind. rewrite getDocumentJob_run, H.
    destruct (status j); [| |eexists; split; reflexivity|];
      (destruct (html j) as [h|]; simpl; [destruct (h =? "")|]; simpl;
       eexists; split; reflexivity).
Qed.

(** C9, the claim as stated fails: with the database unreachable the lookup
    of a job that exists returns absence, and the endpoint answers it as
    not found. *)
Lemma absence_for_existing_job :
  exists j w',
    stored memo_id (table pending_job_world) = Some j /\
    getDocumentJob memo_id (sample_env [3] answers_memo) pending_job_world
    = (Returned None, w') /\
    fst (checkJobStatus memo_id (sample_env [3] answers_memo) pending_job_world)
    = Returned not_found.
Proof. do 2 eexists. repeat split. Qed.

(** What the status endpoint answers for a row whose reply needs no
    synthesized document. *)
Lemma checkJobStatus_from_row (jobId : string) (e1 e2 : Env) (w1 w2 : World) :
  table w1 = table w2 ->
  db_unreachable e1 (tick w1) = db_unreachable e2 (tick w2) ->
  reply_from_store jobId (table w1) = true ->
  fst (checkJobStatus jobId e1 w1) = fst (checkJobStatus jobId e2 w2).
Proof.
  intros Ht Hdb Hrow. unfold checkJobStatus, bind.
  rewrite !getDocumentJob_run, <- Ht, <- Hdb.
  destruct (db_unreachable e1 (tick w1)); [reflexivity|].
  unfold reply_from_store in Hrow.
  destruct (stored jobId (table w1)) as [job|]; [|reflexivity].
  unfold reply_from_row in Hrow.
  destruct (status job) eqn:Es; try reflexivity;
    destruct (present_column_or_else (html job) (createLoadingHtml (prompt job)) Hrow)
      as (h & Hh & Hne & _);
    rewrite Hh; simpl; apply String.eqb_neq in Hne; rewrite Hne; reflexivity.
Qed.

(** C4 (as amended).  Two status checks in succession, with no write in
    between and with the database answering the second as it answered the
    first, return identical payloads when the reply is read off the stored
    record alone: there is no record, the job is completed, or its stored
    html is non-empty.  The endpoint itself writes nothing. *)
Theorem checkJobStatus_repeatable (e : Env) (w : World) (jobId : string) :
  db_unreachable e (tick (snd (checkJobStatus jobId e w))) = db_unreachable e (tick w) ->
  reply_from_store jobId (table w) = true ->
  fst (checkJobStatus jobId e (snd (checkJobStatus jobId e w)))
  = fst (checkJobStatus jobId e w) /\
  table (snd (checkJobStatus jobId e w)) = table w.
Proof.
  intros Hdb Hrow.
  destruct (checkJobStatus_reads_only jobId e w) as (Ht & _).
  split; [|exact Ht].
  apply checkJobStatus_from_row; [exact Ht | exact Hdb | now rewrite Ht].
Qed.

(** Two checks of a completed job. *)
Lemma checkJobStatus_repeatable_witness :
  reply_from_store memo_id (table memo_done_world) = true /\
  fst (checkJobStatus memo_id (sample_env [] answers_memo)
         (snd (checkJobStatus memo_id (sample_env [] answers_memo) memo_done_world)))
  = fst (checkJobStatus memo_id (sample_env [] answers_memo) memo_done_world) /\
  table (snd (checkJobStatus memo_id (sample_env [] answers_memo) memo_done_world))
  = table memo_done_world.
Proof.
  split; [reflexivity|].
  apply (checkJobStatus_repeatable (sample_env [] answers_memo) memo_done_world memo_id);
    reflexivity.
Defined.

(** C4, the claim as stated fails: two status checks of a pending job, one
    second apart and with nothing written in between, return different
    payloads, because the placeholder is synthesized at request time and
    shows the time of the request. *)
Lemma status_replies_differ :
  exists r1 w1 r2 w2,
    checkJobStatus memo_id (sample_env [] answers_memo) pending_job_world
    = (Returned r1, w1) /\
    checkJobStatus memo_id (sample_env [] answers_memo) w1 = (Returned r2, w2) /\
    table w1 = table pending_job_world /\
    table w2 = table pending_job_world /\
    calls w2 = [CallSelect memo_id; CallSelect memo_id] /\
    get_opt (payload r1) "html" <> get_opt (payload r2) "html" /\
    r1 <> r2.
Proof.
  do 4 eexists. split; [reflexivity|]. split; [reflexivity|].
  repeat split; try (vm_compute; discriminate).
Qed.



(** ** The job processor *)

Lemma bind_run {A B : Type} (m : M A) (k : A -> M B) (e : Env) (w : World) :
  bind m k e w =
  match m e w with
  | (Returned a, w') => k a e w'
  | (Threw x, w') => (Threw x, w')
  | (NeverSettles, w') => (NeverSettles, w')
  end.
Proof. reflexivity. Qed.

Lemma try_catch_run {A : Type} (body : M A) (handler : exn -> M A) (e : Env) (w : World) :
  try_catch body handler e w =
  match body e w with
  | (Threw x, w') => handler x e w'
  | r => r
  end.
Proof. reflexivity. Qed.

Lemma update_then_ret (jobId : string) (u : Updates) (e : Env) (w : World) :
  (updateDocumentJob jobId u ;;; ret tt) e w
  = (Returned tt, snd (updateDocumentJob jobId u e w)).
Proof.
  rewrite bind_run, updateDocumentJob_run. cbv zeta.
  now destruct (db_unreachable e (tick w)).
Qed.

Lemma markup_run (jobId text : string) (e : Env) (w : World) :
  (if isHtmlContent text
   then updateDocumentJob jobId (completed_html_update jobId text) ;;; ret tt
   else throw (JsError "Invalid response format")) e w
  = match (if isHtmlContent text
           then Completes (completed_html_update jobId text)
           else Fails (JsError "Invalid response format")) with
    | Hangs => (NeverSettles, w)
    | Fails x => (Threw x, w)
    | Completes u => (Returned tt, snd (updateDocumentJob jobId u e w))
    end.
Proof.
  destruct (isHtmlContent text); [apply update_then_ret | reflexivity].
Qed.

(** The [try] block does what the classification of the webhook's answer
    says. *)
Lemma processJob_try_run (jobId : string) (data : value) (e : Env) (w : World) :
  processJob_try jobId data e w =
  match attempt jobId (webhook e (S (tick w)) (JSON_stringify data)) with
  | Hangs => (NeverSettles, after_request jobId e w)
  | Fails x => (Threw x, after_request jobId e w)
  | Completes u =>
      (Returned tt, snd (updateDocumentJob jobId u e (after_request jobId e w)))
  end.
Proof.
  unfold processJob_try, after_request.
  rewrite bind_run, (updateDocumentJob_run jobId processing_update). cbv zeta.
  assert (Htick : tick (snd (if db_unreachable e (tick w)
      then (@Returned bool false, advance (record_call (CallUpdate jobId processing_update) w))
      else (Returned true,
            set_table (update_rows jobId processing_update (table w))
              (advance (record_call (CallUpdate jobId processing_update) w)))))
    = S (tick w)) by now destruct (db_unreachable e (tick w)).
  destruct (if db_unreachable e (tick w) then _ else _) as [o w1] eqn:E1.
  assert (Ho : exists b, o = Returned b)
    by (destruct (db_unreachable e (tick w)); inversion E1; eauto).
  destruct Ho as [b ->]. cbn [snd] in *. clear E1.
  rewrite bind_run. unfold fetch_webhook. rewrite Htick.
  destruct (webhook e (S (tick w)) (JSON_stringify data)) as [x| |r];
    cbn [attempt]; [reflexivity | reflexivity |].
  destruct (negb (ok r)); [reflexivity|].
  rewrite bind_run. unfold lift at 1.
  destruct (body_text r) as [x|text]; [reflexivity|].
  unfold ret at 1. cbv beta iota zeta. rewrite try_catch_run, bind_run.
  unfold JSON_parse.
  destruct (body_json r) as [v|]; [|apply markup_run].
  unfold ret at 1. cbv beta iota. rewrite bind_run. unfold lift at 1.
  destruct (get v "html") as [x|h]; [apply markup_run|].
  unfold ret at 1. cbv beta iota. rewrite bind_run. unfold lift at 1.
  destruct (get v "projectId") as [x|p]; [apply markup_run|].
  unfold ret at 1. cbv beta iota. rewrite update_then_ret. reflexivity.
Qed.

(** The [catch] block: a lookup, and one write when the lookup finds the
    job. *)
Lemma processJob_catch_run (jobId : string) (error : exn) (e : Env) (w : World) :
  processJob_catch jobId error e w =
  let w1 := advance (record_call (CallSelect jobId) w) in
  match (if db_unreachable e (tick w) then None else stored jobId (table w)) with
  | None => (Returned tt, w1)
  | Some job =>
      let fallbackHtml :=
        fallback_document (prompt job) (message_of error) (clock e (S (tick w))) in
      (Returned tt,
       snd (updateDocumentJob jobId
              (failed_update jobId (message_of error) fallbackHtml) e (advance w1)))
  end.
Proof.
  unfold processJob_catch. rewrite bind_run, getDocumentJob_run. cbv zeta.
  destruct (if db_unreachable e (tick w) then None else stored jobId (table w))
    as [job|]; [|reflexivity].
  rewrite bind_run. unfold createFallbackHtml. rewrite bind_run.
  unfold new_Date, ret at 1. cbv beta iota. apply update_then_ret.
Qed.

Lemma processJob_run (jobId : string) (data : value) (e : Env) (w : World) :
  processJob jobId data e w =
  match attempt jobId (webhook e (S (tick w)) (JSON_stringify data)) with
  | Hangs => (NeverSettles, after_request jobId e w)
  | Fails x => processJob_catch jobId x e (after_request jobId e w)
  | Completes u =>
      (Returned tt, snd (updateDocumentJob jobId u e (after_request jobId e w)))
  end.
Proof.
  unfold processJob. rewrite try_catch_run, processJob_try_run.
  now destruct (attempt jobId _).
Qed.

(** No exception leaves [processJob]. *)
Lemma processJob_never_throws (jobId : string) (data : value) (e : Env) (w : World)
  (x : exn) :
  fst (processJob jobId data e w) <> Threw x.
Proof.
  rewrite processJob_run.
  destruct (attempt jobId _); [discriminate | | discriminate].
  rewrite processJob_catch_run. cbv zeta.
  destruct (if db_unreachable e _ then None else stored jobId _); discriminate.
Qed.

(** What a call of [updateDocumentJob] leaves behind. *)
Lemma updateDocumentJob_world (jobId : string) (u : Updates) (e : Env) (w : World) :
  let w' := snd (updateDocumentJob jobId u e w) in
  table w' = (if db_unreachable e (tick w) then table w
              else update_rows jobId u (table w)) /\
  tick w' = S (tick w) /\
  calls w' = (calls w ++ [CallUpdate jobId u])%list /\
  detached w' = detached w.
Proof.
  rewrite updateDocumentJob_run. cbv zeta.
  now destruct (db_unreachable e (tick w)).
Qed.

Lemma after_request_world (jobId : string) (e : Env) (w : World) :
  let w' := after_request jobId e w in
  table w' = (if db_unreachable e (tick w) then table w
              else update_rows jobId processing_update (table w)) /\
  tick w' = S (S (tick w)) /\
  calls w' = (calls w ++ [CallUpdate jobId processing_update])%list /\
  detached w' = detached w.
Proof.
  destruct (updateDocumentJob_world jobId processing_update e w) as (Ht & Hk & Hc & Hd).
  unfold after_request. cbn [table tick calls detached advance].
  now rewrite Ht, Hk, Hc, Hd.
Qed.

Lemma stored_after_update (jobId : string) (u : Updates) (e : Env) (w : World) :
  stored jobId (table (snd (updateDocumentJob jobId u e w)))
  = if db_unreachable e (tick w) then stored jobId (table w)
    else option_map (apply_updates u) (stored jobId (table w)).
Proof.
  destruct (updateDocumentJob_world jobId u e w) as (Ht & _). rewrite Ht.
  destruct (db_unreachable e (tick w)); [reflexivity | apply stored_update_rows].
Qed.

Lemma stored_after_request (jobId : string) (e : Env) (w : World) :
  stored jobId (table (after_request jobId e w))
  = if db_unreachable e (tick w) then stored jobId (table w)
    else option_map (apply_updates processing_update) (stored jobId (table w)).
Proof.
  destruct (after_request_world jobId e w) as (Ht & _). rewrite Ht.
  destruct (db_unreachable e (tick w)); [reflexivity | apply stored_update_rows].
Qed.

Lemma processJob_try_threw (jobId : string) (data : value) (e : Env) (w w1 : World)
  (err : exn) :
  processJob_try jobId data e w = (Threw err, w1) ->
  attempt jobId (webhook e (S (tick w)) (JSON_stringify data)) = Fails err /\
  w1 = after_request jobId e w.
Proof.
  rewrite processJob_try_run.
  destruct (attempt jobId _); intros H; inversion H; auto.
Qed.

(** C3 (as amended).  No exception leaves [processJob], whatever happens
    in it.  When the [try] block fails with an error, and the re-read of
    the job returns the job, and the write that follows reaches the store,
    the processor returns with the job marked failed, its error field
    holding the error message and its html a fallback document that shows
    the job's prompt and the message. *)
Theorem processJob_failure_recorded
  (e : Env) (w : World) (jobId : string) (data : value) :
  (forall x, fst (processJob jobId data e w) <> Threw x) /\
  forall (err : exn) (w1 w2 : World) (job : DocumentJob),
    processJob_try jobId data e w = (Threw err, w1) ->
    getDocumentJob jobId e w1 = (Returned (Some job), w2) ->
    db_unreachable e (S (tick w2)) = false ->
    let errorMessage := message_of err in
    let fallbackHtml :=
      fallback_document (prompt job) errorMessage (clock e (tick w2)) in
    fst (processJob jobId data e w) = Returned tt /\
    (exists j,
        stored jobId (table (snd (processJob jobId data e w))) = Some j /\
        j = apply_updates (failed_update jobId errorMessage fallbackHtml) job /\
        status j = failed /\
        error j = Some errorMessage /\
        html j = Some fallbackHtml /\
        prompt j = prompt job) /\
    includes fallbackHtml (prompt job) = true /\
    includes fallbackHtml errorMessage = true.
Proof.
  split; [intros x; apply processJob_never_throws|].
  intros err w1 w2 job Htry Hget Hdb errorMessage fallbackHtml.
  apply processJob_try_threw in Htry as [Ha ->].
  set (w1 := after_request jobId e w) in *.
  rewrite getDocumentJob_run in Hget.
  assert (Hjob : (if db_unreachable e (tick w1) then None else stored jobId (table w1))
                 = Some job) by congruence.
  assert (Hw2 : w2 = advance (record_call (CallSelect jobId) w1)) by congruence.
  clear Hget. subst w2. cbn [tick advance record_call] in *.
  rewrite processJob_run, Ha, processJob_catch_run. fold w1. cbv zeta. rewrite Hjob.
  fold errorMessage. fold fallbackHtml. cbn [fst snd].
  split; [reflexivity|]. split; [|apply fallback_document_embeds].
  eexists. split; [|repeat split].
  rewrite stored_after_update. cbn [tick table advance record_call]. rewrite Hdb.
  destruct (db_unreachable e (tick w1)); [discriminate|].
  now rewrite Hjob.
Qed.

(** The webhook answers 500 and the store is reachable. *)
Lemma processJob_failure_recorded_witness :
  exists err w1 job w2,
    processJob_try memo_id memo_data (sample_env [] answers_500) pending_job_world
    = (Threw err, w1) /\
    getDocumentJob memo_id (sample_env [] answers_500) w1 = (Returned (Some job), w2) /\
    db_unreachable (sample_env [] answers_500) (S (tick w2)) = false /\
    fst (processJob memo_id memo_data (sample_env [] answers_500) pending_job_world)
    = Returned tt /\
    exists j,
      stored memo_id
        (table (snd (processJob memo_id memo_data (sample_env [] answers_500)
                       pending_job_world))) = Some j /\
      status j = failed /\
      error j = Some "Server responded with status: 500" /\
      prompt j = "Write a memo".
Proof.
  do 4 eexists.
  split; [reflexivity|]. split; [reflexivity|]. split; [reflexivity|].
  destruct (proj2 (processJob_failure_recorded (sample_env [] answers_500)
                     pending_job_world memo_id memo_data)
              _ _ _ _ eq_refl eq_refl eq_refl)
    as (Hret & (j & Hj & _ & Hs & He & _ & Hp) & _).
  split; [exact Hret|]. exists j. auto.
Defined.

(** C3, the claim as stated fails: the webhook answers 500, the database is
    unreachable when the processor re-reads the job, and the processor
    returns with the job still processing and no error recorded. *)
Lemma failure_left_unrecorded :
  exists err w1 w' j,
    processJob_try memo_id memo_data (sample_env [5] answers_500) pending_job_world
    = (Threw err, w1) /\
    processJob memo_id memo_data (sample_env [5] answers_500) pending_job_world
    = (Returned tt, w') /\
    table w' = [j] /\
    job_id j = memo_id /\ status j = processing /\ error j = None /\ html j = None.
Proof. do 4 eexists. repeat split. Qed.

(** C10.  When the [try] block fails and the re-read of the job returns
    absence, the processor returns without another store call: the only
    write it has made is the one that marks the job processing.  The row
    of the job, if the table holds it, keeps its html, error and result,
    and its status is processing if that first write went through and
    unchanged if not; it is not failed unless it already was.  No other
    [processJob] call is left to run. *)
Theorem processJob_failure_unrecorded
  (e : Env) (w : World) (jobId : string) (data : value) (err : exn) (w1 w2 : World) :
  processJob_try jobId data e w = (Threw err, w1) ->
  getDocumentJob jobId e w1 = (Returned None, w2) ->
  processJob jobId data e w = (Returned tt, w2) /\
  table w2 = table w1 /\
  calls w2 = (calls w ++ [CallUpdate jobId processing_update; CallSelect jobId])%list /\
  detached w2 = detached w /\
  forall j0, stored jobId (table w) = Some j0 ->
    exists j,
      stored jobId (table w2) = Some j /\
      j = (if db_unreachable e (tick w) then j0 else apply_updates processing_update j0) /\
      status j = (if db_unreachable e (tick w) then status j0 else processing) /\
      html j = html j0 /\ error j = error j0 /\ result j = result j0.
Proof.
  intros Htry Hget.
  apply processJob_try_threw in Htry as [Ha ->].
  set (w1 := after_request jobId e w) in *.
  rewrite getDocumentJob_run in Hget.
  assert (Hjob : (if db_unreachable e (tick w1) then None else stored jobId (table w1))
                 = None) by congruence.
  assert (Hw2 : w2 = advance (record_call (CallSelect jobId) w1)) by congruence.
  clear Hget. subst w2. cbn [table calls detached advance record_call].
  destruct (after_request_world jobId e w) as (Ht & Hk & Hc & Hd). fold w1 in Ht, Hk, Hc, Hd.
  split; [|split; [reflexivity|split; [|split; [exact Hd|]]]].
  - rewrite processJob_run, Ha, processJob_catch_run. fold w1. cbv zeta.
    now rewrite Hjob.
  - rewrite Hc, <- app_assoc. reflexivity.
  - intros j0 Hj0. unfold w1. rewrite stored_after_request, Hj0.
    destruct (db_unreachable e (tick w)); eexists; repeat split.
Qed.

(** The webhook answers 500 and the database is unreachable at the
    re-read. *)
Lemma processJob_failure_unrecorded_witness :
  exists err w1 w2,
    processJob_try memo_id memo_data (sample_env [5] answers_500) pending_job_world
    = (Threw err, w1) /\
    getDocumentJob memo_id (sample_env [5] answers_500) w1 = (Returned None, w2) /\
    processJob memo_id memo_data (sample_env [5] answers_500) pending_job_world
    = (Returned tt, w2) /\
    calls w2 = [CallUpdate memo_id processing_update; CallSelect memo_id].
Proof.
  do 3 eexists.
  split; [reflexivity|]. split; [reflexivity|].
  destruct (processJob_failure_unrecorded (sample_env [5] answers_500) pending_job_world
              memo_id memo_data _ _ _ eq_refl eq_refl)
    as (Hrun & _ & Hcalls & _).
  split; [exact Hrun | exact Hcalls].
Defined.

(** What the classification says of an answer that completes the job. *)
Lemma attempt_completes (jobId : string) (answer : FetchOutcome) (u : Updates) :
  attempt jobId answer = Completes u ->
  exists r text,
    answer = FetchResolves r /\ ok r = true /\ body_text r = inr text /\
    ((exists jsonData h p,
         body_json r = Some jsonData /\
         get jsonData "html" = inr h /\
         get jsonData "projectId" = inr p /\
         u = completed_json_update jsonData h p) \/
     (isHtmlContent text = true /\ u = completed_html_update jobId text)).
Proof.
  destruct answer as [x| |r]; cbn [attempt]; try discriminate.
  destruct (ok r) eqn:Eok; cbn [negb]; [|discriminate].
  destruct (body_text r) as [x|text] eqn:Et; [discriminate|].
  intros H. exists r, text.
  split; [reflexivity|]. split; [exact Eok|]. split; [exact Et|].
  assert (Hmarkup :
    (if isHtmlContent text then Completes (completed_html_update jobId text)
     else Fails (JsError "Invalid response format")) = Completes u ->
    isHtmlContent text = true /\ u = completed_html_update jobId text).
  { destruct (isHtmlContent text); intros E; inversion E; auto. }
  cbv zeta in H.
  destruct (body_json r) as [v|]; [|right; auto].
  destruct (get v "html") as [x|h] eqn:Eh; [right; auto|].
  destruct (get v "projectId") as [x|p] eqn:Ep; [right; auto|].
  left. exists v, h, p. inversion H. auto.
Qed.




(** ** The submission endpoint *)




(** C7, evaluated where the code departs from the claim.  The insertion
    fails for a request with the prompt [Write a memo].  The handler
    answers with status 200, the error text in the [error] field and a
    project id made from the clock, and nothing is stored; but the
    fallback html is made by [createFallbackHtml("Error processing your
    request")]: it shows that sentence as the prompt, and contains neither
    the prompt of the request nor the error text. *)
Theorem POST_fallback_lacks_prompt_and_error :
  exists fallback w',
    POST memo_request (sample_env [0] answers_memo) empty_world
    = (Returned
         (NextResponse_json
            (VObject [("error", VString "Failed to create job record");
                      ("html", VString fallback);
                      ("projectId", VString "error-1793613602000")])
            200), w') /\
    table w' = [] /\ detached w' = [] /\
    fallback = fallback_document "Error processing your request" "" (sample_instant 1) /\
    includes fallback ("Your prompt was: " ++ dquote ++ "Error processing your request"
                       ++ dquote) = true /\
    includes fallback "Write a memo" = false /\
    includes fallback "Failed to create job record" = false /\
    includes fallback "Error:" = false.
Proof. do 2 eexists. repeat split. Qed.

(** ** The client poll loop *)



Section PollLoop.

Variable jobId : string.
Variable prompt : string.
Variable shown : value.
Variable replies : nat -> StatusReply.
Variable client_clock : nat -> Instant.



End PollLoop.


(** Scenario C: sixty answers that say processing, two seconds apart. *)
Example poll_times_out :
  exists run,
    pollJobStatus memo_id "Write a memo" (VString "") always_processing sample_instant
      61 fresh_client = Some run /\
    requests run = 60 /\
    waits run = repeat 2000%Z 60 /\
    fold_right Z.add 0%Z (waits run) = 120000%Z /\
    loading (home run) = false /\
    generatedHtml (home run)
    = VString (timeout_document "Write a memo" "Job processing timed out after 2 minutes"
                 (sample_instant 0)).
Proof. eexists. repeat split. Qed.

(** * Further properties *)

(** ** The route as a whole *)

(** The status endpoint always answers: with the not-found reply or with
    status 200. *)
Lemma checkJobStatus_answers (jobId : string) (e : Env) (w : World) :
  exists reply,
    checkJobStatus jobId e w
    = (Returned reply, snd (checkJobStatus jobId e w)) /\
    (reply = not_found \/ status_code reply = 200%Z).
Proof.
  unfold checkJobStatus. rewrite bind_run, getDocumentJob_run.
  destruct (if db_unreachable e (tick w) then None else stored jobId (table w))
    as [job|]; [|eexists; split; [reflexivity | now left]].
  destruct (status job); [| |eexists; split; [reflexivity | now right]|];
    (destruct (html job) as [h|]; cbn [column_or_else]; [destruct (h =? "")|];
     eexists; split; try reflexivity; now right).
Qed.

(** The [catch] of [POST]: a 200 reply. *)
Lemma POST_catch_run (error : exn) (e : Env) (w : World) :
  (fallback <- createFallbackHtml "Error processing your request" "" ;;
   now <- new_Date ;;
   ret (NextResponse_json
          (VObject [("error", VString (message_of error));
                    ("html", VString fallback);
                    ("projectId", VString ("error-" ++ string_of_Z (epoch_ms now)))])
          200)) e w
  = (Returned
       (NextResponse_json
          (VObject [("error", VString (message_of error));
                    ("html", VString (fallback_document "Error processing your request"
                                        "" (clock e (tick w))));
                    ("projectId",
                     VString ("error-" ++ string_of_Z (epoch_ms (clock e (S (tick w))))))])
          200),
     advance (advance w)).
Proof. reflexivity. Qed.

(** X1.  [POST] answers every request: no exception leaves it and it does
    not hang.  The answer has status 200, or is the not-found reply of a
    status check.  A request that carries a [jobId] changes neither the
    table nor the detached calls, whatever its body; any other request
    leaves the rows of the table as they are and adds at most one row, a
    pending one. *)
Theorem POST_always_answers (request : NextRequest) (e : Env) (w : World) :
  exists reply w',
    POST request e w = (Returned reply, w') /\
    (status_code reply = 200%Z \/
     reply = not_found /\ exists c rest, searchParams_jobId request = Some (String c rest)) /\
    (table w' = table w \/
     exists row data,
       request_json request = inr data /\
       table w' = (table w ++ [row])%list /\ status row = pending /\
       detached w' = (detached w ++ [(job_id row, data)])%list) /\
    (forall c rest, searchParams_jobId request = Some (String c rest) ->
       table w' = table w /\ detached w' = detached w).
Proof.
  unfold POST. rewrite try_catch_run. cbv zeta.
  destruct (searchParams_jobId request) as [[|c rest]|] eqn:Eid.
  2:{ destruct (checkJobStatus_answers (String c rest) e w) as (reply & Hrun & Hcode).
      destruct (checkJobStatus_reads_only (String c rest) e w) as (Ht & Hd & _).
      rewrite Hrun. do 2 eexists. split; [reflexivity|].
      split; [destruct Hcode; eauto|]. split; [now left|]. auto. }
  all: rewrite bind_run; unfold lift at 1;
    (destruct (request_json request) as [x|data];
     [unfold throw at 1; rewrite POST_catch_run; do 2 eexists;
      split; [reflexivity|]; split; [now left|]; split; [now left|];
      intros; discriminate|]);
    unfold ret at 1; cbv beta iota; rewrite bind_run; unfold lift at 1;
    (destruct (get data "prompt") as [x|data_prompt];
     [unfold throw at 1; rewrite POST_catch_run; do 2 eexists;
      split; [reflexivity|]; split; [now left|]; split; [now left|];
      intros; discriminate|]);
    unfold ret at 1; cbv beta iota; rewrite bind_run, createDocumentJob_run; cbv zeta;
    (destruct (db_unreachable e (tick w));
     [unfold throw at 1; rewrite POST_catch_run; do 2 eexists;
      split; [reflexivity|]; split; [now left|]; split; [now left|];
      intros; discriminate|]);
    (destruct (text_of_json _);
     [|unfold throw at 1; rewrite POST_catch_run; do 2 eexists;
       split; [reflexivity|]; split; [now left|]; split; [now left|];
       intros; discriminate]);
    (destruct (existsb _ (table w));
     [unfold throw at 1; rewrite POST_catch_run; do 2 eexists;
      split; [reflexivity|]; split; [now left|]; split; [now left|];
      intros; discriminate|]);
    rewrite bind_run; unfold start_detached at 1; cbv beta iota;
    rewrite bind_run; unfold createLoadingHtml; rewrite bind_run;
    unfold new_Date at 1, ret; cbv beta iota;
    do 2 eexists; (split; [reflexivity|]); (split; [now left|]);
    (split; [right; do 2 eexists; repeat split|intros; discriminate]).
Qed.

(** ** What the processor keeps *)

Lemma keeps_jobs_update (jobId : string) (u : Updates) (e : Env) (w : World) :
  upd_prompt u = None ->
  exists f, keeps_jobs jobId f /\
            table (snd (updateDocumentJob jobId u e w)) = map f (table w).
Proof.
  intros Hp. rewrite updateDocumentJob_run. cbv zeta.
  destruct (db_unreachable e (tick w)).
  - exists (fun j => j). split; [now repeat split|]. cbn [snd table advance record_call].
    now rewrite map_id.
  - exists (fun j => if has_id jobId j then apply_updates u j else j).
    split; [|reflexivity].
    intros j. destruct (has_id jobId j) eqn:E; unfold has_id in E.
    + apply String.eqb_eq in E. cbn. rewrite Hp. repeat split. congruence.
    + now repeat split.
Qed.

Lemma keeps_jobs_compose (jobId : string) (f g : DocumentJob -> DocumentJob) :
  keeps_jobs jobId f -> keeps_jobs jobId g -> keeps_jobs jobId (fun j => g (f j)).
Proof.
  intros Hf Hg j. destruct (Hf j) as (F1 & F2 & F3 & F4 & F5).
  destruct (Hg (f j)) as (G1 & G2 & G3 & G4 & G5).
  repeat split; try congruence.
  intros Hne. rewrite (F5 Hne) in *. now apply G5.
Qed.

Lemma keeps_jobs_processJob (jobId : string) (data : value) (e : Env) (w : World) :
  exists f, keeps_jobs jobId f /\
            table (snd (processJob jobId data e w)) = map f (table w).
Proof.
  destruct (keeps_jobs_update jobId processing_update e w eq_refl) as (f & Hf & Htf).
  assert (Hreq : table (after_request jobId e w) = map f (table w)) by exact Htf.
  assert (Hthen : forall u, upd_prompt u = None ->
            exists g, keeps_jobs jobId g /\
              table (snd (updateDocumentJob jobId u e (after_request jobId e w)))
              = map g (table w)).
  { intros u Hu.
    destruct (keeps_jobs_update jobId u e (after_request jobId e w) Hu) as (g & Hg & Htg).
    exists (fun j => g (f j)). split; [now apply keeps_jobs_compose|].
    now rewrite Htg, Hreq, map_map. }
  rewrite processJob_run.
  destruct (attempt jobId _) as [|x|u] eqn:Ea.
  - exists f. auto.
  - rewrite processJob_catch_run. cbv zeta.
    destruct (if db_unreachable e _ then None else stored jobId _) as [job|].
    + cbn [snd].
      destruct (keeps_jobs_update jobId
                  (failed_update jobId (message_of x)
                     (fallback_document (prompt job) (message_of x)
                        (clock e (S (tick (after_request jobId e w))))))
                  e (advance (advance (record_call (CallSelect jobId)
                                         (after_request jobId e w)))) eq_refl)
        as (g & Hg & Htg).
      exists (fun j => g (f j)). split; [now apply keeps_jobs_compose|].
      rewrite Htg. cbn [table advance record_call]. now rewrite Hreq, map_map.
    + exists f. auto.
  - cbn [snd]. apply Hthen.
    apply attempt_completes in Ea as (r & text & _ & _ & _ & Hu).
    destruct Hu as [(v & h & p & _ & _ & _ & ->) | (_ & ->)]; reflexivity.
Qed.

(** X2.  [processJob] neither adds nor removes a row.  Every row keeps its
    job id, its prompt and its two timestamps, and the rows of other jobs
    are left exactly as they were: the processor writes to its own job
    only, and never to the prompt. *)
Theorem processJob_keeps_jobs (jobId : string) (data : value) (e : Env) (w : World) :
  List.length (table (snd (processJob jobId data e w))) = List.length (table w) /\
  forall n j,
    nth_error (table w) n = Some j ->
    exists j',
      nth_error (table (snd (processJob jobId data e w))) n = Some j' /\
      job_id j' = job_id j /\
      prompt j' = prompt j /\
      created_at j' = created_at j /\
      updated_at j' = updated_at j /\
      (job_id j <> jobId -> j' = j).
Proof.
  destruct (keeps_jobs_processJob jobId data e w) as (f & Hf & ->).
  split; [apply length_map|].
  intros n j Hn. exists (f j). rewrite nth_error_map, Hn.
  destruct (Hf j) as (F1 & F2 & F3 & F4 & F5). auto 10.
Qed.

(** What the classification says of an answer that fails the job. *)
Lemma attempt_fails (jobId : string) (answer : FetchOutcome) (err : exn) :
  attempt jobId answer = Fails err ->
  answer = FetchRejects err \/
  exists r,
    answer = FetchResolves r /\
    ((ok r = false /\
      err = JsError ("Server responded with status: " ++ string_of_Z (http_status r))) \/
     (ok r = true /\ body_text r = inl err) \/
     (ok r = true /\ err = JsError "Invalid response format" /\
      exists text, body_text r = inr text /\ isHtmlContent text = false)).
Proof.
  destruct answer as [x| |r]; cbn [attempt]; try discriminate.
  { intros H. injection H as ->. now left. }
  intros H. right. exists r. split; [reflexivity|].
  destruct (ok r) eqn:Eok; cbn [negb] in H;
    [|left; split; [reflexivity|]; now injection H as <-].
  right. destruct (body_text r) as [x|text] eqn:Et;
    [left; split; [reflexivity|]; now injection H as <-|].
  right. split; [reflexivity|].
  assert (Hmarkup :
    (if isHtmlContent text then Completes (completed_html_update jobId text)
     else Fails (JsError "Invalid response format")) = Fails err ->
    err = JsError "Invalid response format" /\ isHtmlContent text = false).
  { destruct (isHtmlContent text); intros E; inversion E; auto. }
  cbv zeta in H.
  assert (Hm : err = JsError "Invalid response format" /\ isHtmlContent text = false).
  { destruct (body_json r) as [v|]; [|auto].
    destruct (get v "html") as [x|h]; [auto|].
    destruct (get v "projectId") as [x|p]; [auto | discriminate]. }
  destruct Hm as [-> Hh]. split; [reflexivity|]. eauto.
Qed.

(** X3.  A job that [processJob] takes to failed has its error field set to
    the message of the error that ended the attempt, its project id set to
    [error-<job id>], and its html set to a non-empty fallback document
    that shows the job's prompt and that message.  The error is the one
    the webhook call rejected with, the non-success status of its answer,
    the failure to read its body, or [Invalid response format]. *)
Theorem failed_job_record
  (e : Env) (w : World) (jobId : string) (data : value) (job0 job : DocumentJob) :
  stored jobId (table w) = Some job0 ->
  status job0 <> failed ->
  stored jobId (table (snd (processJob jobId data e w))) = Some job ->
  status job = failed ->
  exists err fallbackHtml,
    attempt jobId (webhook e (S (tick w)) (JSON_stringify data)) = Fails err /\
    error job = Some (message_of err) /\
    html job = Some fallbackHtml /\
    project_id job = Some ("error-" ++ jobId) /\
    prompt job = prompt job0 /\
    fallbackHtml <> "" /\
    includes fallbackHtml (prompt job0) = true /\
    includes fallbackHtml (message_of err) = true.
Proof.
  intros Hj0 Hs0 Hj Hs.
  rewrite processJob_run in Hj.
  assert (Hreq : exists j1, stored jobId (table (after_request jobId e w)) = Some j1 /\
                   status j1 <> failed /\ prompt j1 = prompt job0).
  { rewrite stored_after_request, Hj0.
    destruct (db_unreachable e (tick w)); eexists; (split; [reflexivity|]);
      cbn; split; auto; discriminate. }
  destruct Hreq as (j1 & Hj1 & Hs1 & Hp1).
  destruct (attempt jobId _) as [|x|u] eqn:Ea.
  - cbn [snd] in Hj. congruence.
  - rewrite processJob_catch_run in Hj. cbv zeta in Hj.
    destruct (db_unreachable e (tick (after_request jobId e w))) eqn:Edb;
      [cbn [snd table advance record_call] in Hj; congruence|].
    rewrite Hj1 in Hj. cbn [snd] in Hj. rewrite stored_after_update in Hj.
    cbn [table tick advance record_call] in Hj. rewrite Hj1 in Hj.
    destruct (db_unreachable e (S (S (tick (after_request jobId e w)))));
      [congruence|].
    cbn [option_map] in Hj. injection Hj as <-. exists x. eexists.
    split; [reflexivity|]. split; [reflexivity|]. split; [reflexivity|].
    split; [reflexivity|]. split; [exact Hp1|].
    split; [apply fallback_document_nonempty|].
    rewrite Hp1. apply fallback_document_embeds.
  - cbn [snd] in Hj. rewrite stored_after_update, Hj1 in Hj.
    apply attempt_completes in Ea as (r & text & _ & _ & _ & Hu).
    destruct (db_unreachable e _); [congruence|].
    injection Hj as <-.
    destruct Hu as [(v & h & p & _ & _ & _ & ->) | (_ & ->)]; discriminate Hs.
Qed.

(** A job whose webhook call is answered with status 500. *)
Lemma failed_job_record_witness :
  exists job0 job,
    stored memo_id (table pending_job_world) = Some job0 /\
    status job0 <> failed /\
    stored memo_id
      (table (snd (processJob memo_id memo_data (sample_env [] answers_500)
                     pending_job_world))) = Some job /\
    status job = failed /\
    error job = Some "Server responded with status: 500" /\
    project_id job = Some ("error-" ++ memo_id).
Proof.
  do 2 eexists.
  split; [reflexivity|]. split; [discriminate|]. split; [reflexivity|].
  split; [reflexivity|].
  assert (Hne : pending <> failed) by discriminate.
  destruct (failed_job_record (sample_env [] answers_500) pending_job_world
              memo_id memo_data _ _ eq_refl Hne eq_refl eq_refl)
    as (err & doc & Ha & He & _ & Hp & _).
  split; [|exact Hp].
  cbn in Ha. injection Ha as <-. exact He.
Defined.

(** ** Round trips through the store *)

Lemma stored_appended (jobId : string) (t : list DocumentJob) (row : DocumentJob) :
  existsb (has_id jobId) t = false -> job_id row = jobId ->
  stored jobId (t ++ [row]) = Some row.
Proof.
  intros Hex Hid. unfold stored. rewrite filter_app.
  assert (Hf : filter (has_id jobId) t = []).
  { destruct (filter (has_id jobId) t) as [|k r] eqn:E; [reflexivity|].
    assert (Hin : In k (filter (has_id jobId) t)) by (rewrite E; now left).
    apply filter_In in Hin as [Hin Hk].
    assert (existsb (has_id jobId) t = true) by (apply existsb_exists; eauto).
    congruence. }
  rewrite Hf. cbn. unfold has_id. subst jobId. now rewrite String.eqb_refl.
Qed.

(** X4.  Insert and look up: the job [createDocumentJob] returns is a
    pending row with no html, project id, error or result and with
    [updated_at] equal to [created_at]; a lookup of its id that reaches
    the database returns exactly that row, and the status endpoint
    answers for it with status pending, the project id
    [pending-<job id>] and the loading document for its prompt, made at
    the time of the check. *)
Theorem create_then_get
  (p : value) (e : Env) (w w1 : World) (row : DocumentJob) :
  createDocumentJob p e w = (Returned (Some row), w1) ->
  db_unreachable e (tick w1) = false ->
  text_of_json p = Some (prompt row) /\
  status row = pending /\ html row = None /\ project_id row = None /\
  error row = None /\ result row = None /\ updated_at row = created_at row /\
  fst (getDocumentJob (job_id row) e w1) = Returned (Some row) /\
  fst (checkJobStatus (job_id row) e w1)
  = Returned
      (NextResponse_json
         (VObject [("status", VString "pending");
                   ("message", VString "Your request is still being processed");
                   ("html", VString (loading_document (prompt row)
                                       (clock e (S (tick w1)))));
                   ("projectId", VString ("pending-" ++ job_id row))])
         200).
Proof.
  intros Hc Hdb. rewrite createDocumentJob_run in Hc. cbv zeta in Hc.
  destruct (db_unreachable e (tick w)); [discriminate|].
  destruct (text_of_json p) as [text|]; [|discriminate].
  destruct (existsb _ (table w)) eqn:Ex; [discriminate|].
  assert (Hrow := f_equal fst Hc). assert (Hw1 := f_equal snd Hc).
  cbn [fst snd] in Hrow, Hw1. injection Hrow as Hrow. clear Hc.
  subst row. cbn [prompt status html project_id error result updated_at created_at job_id].
  do 7 (split; [reflexivity|]).
  assert (Hst : stored (uuid_generate_v4 e (tick w)) (table w1)
                = Some {| job_id := uuid_generate_v4 e (tick w); status := pending;
                          prompt := text; html := None; project_id := None;
                          error := None; result := None;
                          created_at := epoch_ms (clock e (tick w));
                          updated_at := epoch_ms (clock e (tick w)) |}).
  { rewrite <- Hw1. cbn [table set_table]. now apply stored_appended. }
  split.
  - rewrite getDocumentJob_run, Hdb, Hst. reflexivity.
  - unfold checkJobStatus. rewrite bind_run, getDocumentJob_run, Hdb, Hst.
    reflexivity.
Qed.

Lemma create_then_get_witness :
  exists row w1,
    createDocumentJob (VString "Write a memo") (sample_env [] answers_memo) empty_world
    = (Returned (Some row), w1) /\
    db_unreachable (sample_env [] answers_memo) (tick w1) = false /\
    prompt row = "Write a memo" /\
    fst (getDocumentJob (job_id row) (sample_env [] answers_memo) w1)
    = Returned (Some row).
Proof.
  do 2 eexists. split; [reflexivity|]. split; [reflexivity|].
  destruct (create_then_get (VString "Write a memo") (sample_env [] answers_memo)
              empty_world _ _ eq_refl eq_refl)
    as (_ & _ & _ & _ & _ & _ & _ & Hget & _).
  split; [reflexivity | exact Hget].
Defined.

(** ** From the webhook's answer to the status reply *)

(** X5.  With the database reachable throughout: when the webhook answers
    the request of an existing job with a success status and a JSON body
    whose [html] is a string and whose [projectId] is a string, a status
    check made after [processJob] has returned answers 200 with status
    completed, the parsed body as [result], that html, and that project id
    (or [completed-<job id>] when it is empty). *)
Theorem completed_job_is_reported
  (e : Env) (w : World) (jobId : string) (data : value) (job0 : DocumentJob)
  (r : HttpResponse) (text h p : string) (jsonData : value) :
  (forall n, db_unreachable e n = false) ->
  stored jobId (table w) = Some job0 ->
  webhook e (S (tick w)) (JSON_stringify data) = FetchResolves r ->
  ok r = true ->
  body_text r = inr text ->
  body_json r = Some jsonData ->
  get jsonData "html" = inr (VString h) ->
  get jsonData "projectId" = inr (VString p) ->
  fst ((processJob jobId data ;;; checkJobStatus jobId) e w)
  = Returned
      (NextResponse_json
         (VObject [("status", VString "completed");
                   ("result", jsonData);
                   ("html", VString h);
                   ("projectId", VString (column_or (Some p) ("completed-" ++ jobId)))])
         200).
Proof.
  intros Hdb Hj0 Hw Hok Ht Hv Hh Hp.
  assert (Ha : attempt jobId (webhook e (S (tick w)) (JSON_stringify data))
               = Completes (completed_json_update jsonData (VString h) (VString p))).
  { rewrite Hw. cbn [attempt]. now rewrite Hok, Ht, Hv, Hh, Hp. }
  rewrite bind_run, processJob_run, Ha.
  unfold checkJobStatus. rewrite bind_run, getDocumentJob_run, Hdb.
  rewrite stored_after_update, Hdb, stored_after_request, Hdb, Hj0.
  cbn [option_map apply_updates completed_json_update processing_update status html
         project_id result upd_status upd_html upd_project_id upd_result write_field
         write_text text_of_json fst column].
  assert (Hres : write_jsonb jsonData (write_jsonb VUndefined (result job0)) = Some jsonData)
    by (destruct jsonData; try reflexivity; discriminate).
  now rewrite Hres.
Qed.

(** Scenario A: the webhook answers with a memo and the project [p1]. *)
Lemma completed_job_is_reported_witness :
  (forall n, db_unreachable (sample_env [] answers_memo) n = false) /\
  fst ((processJob memo_id memo_data ;;; checkJobStatus memo_id)
         (sample_env [] answers_memo) pending_job_world)
  = Returned
      (NextResponse_json
         (VObject [("status", VString "completed");
                   ("result", VObject [("html", VString "<h1>Memo</h1>");
                                       ("projectId", VString "p1")]);
                   ("html", VString "<h1>Memo</h1>");
                   ("projectId", VString "p1")])
         200).
Proof.
  split; [reflexivity|].
  exact (completed_job_is_reported (sample_env [] answers_memo) pending_job_world
           memo_id memo_data _ _ _ _ _ _
           (fun n => eq_refl) eq_refl eq_refl eq_refl eq_refl eq_refl eq_refl eq_refl).
Defined.

(** X6.  With the database reachable throughout: when the webhook answers
    the request of an existing job with a status outside 200..299, a
    status check made after [processJob] has returned answers 200 with
    status failed, the error [Server responded with status: <status>],
    the project id [error-<job id>], and as html the fallback document
    made for the job's prompt and that error, which shows both. *)
Theorem failed_job_is_reported
  (e : Env) (w : World) (jobId : string) (data : value) (job0 : DocumentJob)
  (r : HttpResponse) :
  (forall n, db_unreachable e n = false) ->
  stored jobId (table w) = Some job0 ->
  webhook e (S (tick w)) (JSON_stringify data) = FetchResolves r ->
  ok r = false ->
  let errorMessage := "Server responded with status: " ++ string_of_Z (http_status r) in
  let fallbackHtml :=
    fallback_document (prompt job0) errorMessage (clock e (S (S (S (tick w))))) in
  fst ((processJob jobId data ;;; checkJobStatus jobId) e w)
  = Returned
      (NextResponse_json
         (VObject [("status", VString "failed");
                   ("error", VString errorMessage);
                   ("html", VString fallbackHtml);
                   ("projectId", VString ("error-" ++ jobId))])
         200) /\
  includes fallbackHtml (prompt job0) = true /\
  includes fallbackHtml errorMessage = true.
Proof.
  intros Hdb Hj0 Hw Hok errorMessage fallbackHtml.
  split; [|apply fallback_document_embeds].
  assert (Ha : attempt jobId (webhook e (S (tick w)) (JSON_stringify data))
               = Fails (JsError errorMessage)).
  { rewrite Hw. cbn [attempt]. now rewrite Hok. }
  destruct (after_request_world jobId e w) as (_ & Hk & _).
  rewrite bind_run, processJob_run, Ha, processJob_catch_run. cbv zeta.
  rewrite Hdb, stored_after_request, Hdb, Hj0. cbn [option_map].
  unfold checkJobStatus. rewrite bind_run, getDocumentJob_run, Hdb.
  rewrite stored_after_update, Hdb. cbn [table advance record_call].
  rewrite stored_after_request, Hdb, Hj0, Hk.
  reflexivity.
Qed.

(** Scenario B: the webhook answers 500. *)
Lemma failed_job_is_reported_witness :
  (forall n, db_unreachable (sample_env [] answers_500) n = false) /\
  get_opt
    (match fst ((processJob memo_id memo_data ;;; checkJobStatus memo_id)
                  (sample_env [] answers_500) pending_job_world) with
     | Returned reply => payload reply
     | _ => VUndefined
     end) "error"
  = VString "Server responded with status: 500".
Proof.
  split; [reflexivity|].
  destruct (failed_job_is_reported (sample_env [] answers_500) pending_job_world
              memo_id memo_data _ _ (fun n => eq_refl) eq_refl eq_refl eq_refl)
    as (Hrun & _).
  rewrite Hrun. reflexivity.
Defined.

(** X7.  The processor sets no time limit on the webhook: when the webhook
    never answers, [processJob] never returns, and it leaves the job, once
    the first write has reached the store, in status processing with
    everything else as it was; it has made that one store call and no
    other.  A status check that reaches the database afterwards reports
    processing. *)
Theorem unanswered_job_stays_processing
  (e : Env) (w : World) (jobId : string) (data : value) (job0 : DocumentJob) :
  webhook e (S (tick w)) (JSON_stringify data) = FetchNeverSettles ->
  db_unreachable e (tick w) = false ->
  stored jobId (table w) = Some job0 ->
  let w' := snd (processJob jobId data e w) in
  fst (processJob jobId data e w) = NeverSettles /\
  stored jobId (table w') = Some (apply_updates processing_update job0) /\
  calls w' = (calls w ++ [CallUpdate jobId processing_update])%list /\
  forall e' w'',
    table w'' = table w' ->
    db_unreachable e' (tick w'') = false ->
    exists reply,
      fst (checkJobStatus jobId e' w'') = Returned reply /\
      status_code reply = 200%Z /\
      get_opt (payload reply) "status" = VString "processing".
Proof.
  intros Hw Hdb Hj0 w'. subst w'.
  rewrite processJob_run, Hw. cbn [attempt fst snd].
  destruct (after_request_world jobId e w) as (_ & _ & Hc & _).
  assert (Hst : stored jobId (table (after_request jobId e w))
                = Some (apply_updates processing_update job0))
    by (now rewrite stored_after_request, Hdb, Hj0).
  split; [reflexivity|]. split; [exact Hst|]. split; [exact Hc|].
  intros e' w'' Ht Hdb'.
  unfold checkJobStatus. rewrite bind_run, getDocumentJob_run, Hdb', Ht, Hst.
  cbn [status apply_updates processing_update upd_status write_field].
  destruct (html (apply_updates processing_update job0)) as [h|];
    cbn [column_or_else]; [destruct (h =? "")|];
    eexists; repeat split.
Qed.

(** Scenario C: the webhook never answers. *)
Lemma unanswered_job_stays_processing_witness :
  exists job0,
    stored memo_id (table pending_job_world) = Some job0 /\
    fst (processJob memo_id memo_data (sample_env [] FetchNeverSettles) pending_job_world)
    = NeverSettles /\
    stored memo_id
      (table (snd (processJob memo_id memo_data (sample_env [] FetchNeverSettles)
                     pending_job_world)))
    = Some (apply_updates processing_update job0).
Proof.
  eexists. split; [reflexivity|].
  destruct (unanswered_job_stays_processing (sample_env [] FetchNeverSettles)
              pending_job_world memo_id memo_data _ eq_refl eq_refl eq_refl)
    as (Hrun & Hst & _).
  split; [exact Hrun | exact Hst].
Defined.

Ltac pick_tail :=
  first [ left; reflexivity | right; left; reflexivity | right; right; reflexivity ].

Ltac crack_strip H :=
  cbv beta iota in H;
  lazymatch type of H with
  | None = Some _ => discriminate H
  | Some _ = Some _ => injection H as <-; pick_tail
  | match ?x with _ => _ end = _ => destruct x; crack_strip H
  | (if ?b then _ else _) = _ => destruct b; crack_strip H
  end.

(** ** Markup detection *)

Lemma two_more_tail (b : bool) (s r : list nat) :
  two_more b s = Some r -> r = skipn 2 s.
Proof.
  unfold two_more. intros H.
  repeat match type of H with
    | None = Some _ => discriminate H
    | Some _ = Some _ => injection H as <-
    | match ?x with _ => _ end = _ => destruct x
    | (if ?b then _ else _) = _ => destruct b
    end; reflexivity.
Qed.

Lemma strip_space_tail (s r : list nat) :
  strip_space s = Some r -> r = skipn 1 s \/ r = skipn 2 s \/ r = skipn 3 s.
Proof. unfold strip_space. intros H. crack_strip H. Qed.

(** A property of every number, from the numbers below a bound and the
    numbers from the bound on. *)
Lemma nat_below_or_from (n : nat) (P : nat -> Prop) :
  Forall P (seq 0 n) -> (forall k, P (n + k)) -> forall a, P a.
Proof.
  intros Hsmall Hbig a. destruct (Nat.lt_ge_cases a n) as [Hlt|Hge].
  - rewrite Forall_forall in Hsmall. apply Hsmall, in_seq. lia.
  - replace a with (n + (a - n)) by lia. apply Hbig.
Qed.

Ltac strip_rev_at n :=
  let s1 := fresh "s1" in let r := fresh "r" in let H := fresh "H" in
  intros s1 r H;
  cbv beta iota delta [strip_space_rev Nat.add] in H;
  first [ right; right; exact (two_more_tail (ends_space n) s1 r H)
        | crack_strip H ].

Lemma strip_space_rev_tail (s r : list nat) :
  strip_space_rev s = Some r -> r = skipn 1 s \/ r = skipn 2 s \/ r = skipn 3 s.
Proof.
  destruct s as [|a s1]; [discriminate|]. revert a s1 r.
  apply (nat_below_or_from 241
           (fun a => forall s1 r, strip_space_rev (a :: s1) = Some r ->
                                  r = skipn 1 (a :: s1) \/ r = skipn 2 (a :: s1) \/
                                  r = skipn 3 (a :: s1))).
  - cbn [seq].
    repeat (apply Forall_cons;
            [match goal with |- forall s1 r, strip_space_rev (?n :: s1) = _ -> _ =>
               strip_rev_at n end|]).
    apply Forall_nil.
  - intros k. strip_rev_at (241 + k).
Qed.

Lemma strip_all_suffix (strip : list nat -> option (list nat)) :
  (forall s r, strip s = Some r -> r = skipn 1 s \/ r = skipn 2 s \/ r = skipn 3 s) ->
  forall fuel s, exists stripped, s = (stripped ++ strip_all strip fuel s)%list.
Proof.
  intros Hstrip fuel. induction fuel as [|fuel IH]; intros s; cbn [strip_all].
  - now exists [].
  - destruct (strip s) as [r|] eqn:E; [|now exists []].
    destruct (IH r) as [stripped Hr].
    assert (Hs : exists k, s = (firstn k s ++ r)%list).
    { destruct (Hstrip s r E) as [->|[->| ->]]; eexists; symmetry; apply firstn_skipn. }
    destruct Hs as [k Hs]. exists (firstn k s ++ stripped)%list.
    rewrite <- app_assoc, <- Hr. exact Hs.
Qed.

Lemma string_of_bytes_app (a b : list nat) :
  string_of_bytes (a ++ b) = string_of_bytes a ++ string_of_bytes b.
Proof.
  unfold string_of_bytes. induction a as [|x a IH]; [reflexivity|].
  cbn. now rewrite <- IH.
Qed.

Lemma string_of_bytes_of_string (s : string) : string_of_bytes (bytes_of_string s) = s.
Proof.
  unfold string_of_bytes, bytes_of_string. induction s as [|c s IH]; [reflexivity|].
  cbn. now rewrite ascii_nat_embedding, IH.
Qed.

(** What [trim] returns is a stretch of the text. *)
Lemma trim_inside (text : string) :
  exists before after, text = before ++ trim text ++ after.
Proof.
  unfold trim. cbv zeta.
  set (b := bytes_of_string text).
  destruct (strip_all_suffix strip_space strip_space_tail (List.length b) b)
    as [front_gone Hfront].
  set (front := strip_all strip_space (List.length b) b) in *.
  destruct (strip_all_suffix strip_space_rev strip_space_rev_tail
              (List.length front) (rev front)) as [back_gone Hback].
  set (back := strip_all strip_space_rev (List.length front) (rev front)) in *.
  exists (string_of_bytes front_gone), (string_of_bytes (rev back_gone)).
  rewrite <- !string_of_bytes_app, <- (string_of_bytes_of_string text).
  fold b. f_equal. rewrite Hfront at 1. f_equal.
  rewrite <- rev_app_distr, <- Hback. now rewrite rev_involutive.
Qed.

Lemma append_assoc (a b c : string) : (a ++ b) ++ c = a ++ b ++ c.
Proof. induction a as [|x a IH]; [reflexivity|]. cbn. now rewrite IH. Qed.

Lemma prefix_split (p s : string) :
  String.prefix p s = true -> exists rest, s = p ++ rest.
Proof.
  revert s. induction p as [|c p IH]; intros s H; [now exists s|].
  destruct s as [|d s]; [discriminate|]. cbn in H.
  destruct (ascii_dec c d) as [->|]; [|discriminate].
  destruct (IH s H) as [rest ->]. now exists rest.
Qed.

(** A text that holds a string holds its first character. *)
Lemma includes_first (s : string) (c : ascii) (p : string) :
  includes s (String c p) = true -> includes s (String c EmptyString) = true.
Proof.
  induction s as [|d s IH]; cbn; [discriminate|].
  destruct (ascii_dec c d) as [->|]; [intros _; now destruct s|].
  cbn. exact IH.
Qed.

Lemma includes_trimmed_prefix (text p : string) :
  startsWith (trim text) p = true -> includes text p = true.
Proof.
  intros H. apply prefix_split in H as [rest Hrest].
  destruct (trim_inside text) as (before & after & Ht).
  rewrite Ht, Hrest, append_assoc.
  apply includes_later, includes_here.
Qed.

(** X8.  [isHtmlContent] accepts no text without a [<]: each of its three
    tests needs one.  So a response body that is not JSON and holds no
    [<] is never stored as a document. *)
Theorem isHtmlContent_needs_angle (text : string) :
  isHtmlContent text = true -> includes text "<" = true.
Proof.
  unfold isHtmlContent. intros H.
  apply orb_true_iff in H as [H|H]; [apply orb_true_iff in H as [H|H]|].
  - apply includes_trimmed_prefix in H. now apply includes_first in H.
  - apply includes_trimmed_prefix in H. now apply includes_first in H.
  - now apply andb_true_iff in H as [H _].
Qed.

Lemma isHtmlContent_needs_angle_witness :
  isHtmlContent "  <!DOCTYPE html" = true /\ includes "  <!DOCTYPE html" ">" = false /\
  includes "  <!DOCTYPE html" "<" = true.
Proof.
  split; [reflexivity|]. split; [reflexivity|].
  apply (isHtmlContent_needs_angle "  <!DOCTYPE html"). reflexivity.
Defined.

(** ** The home page *)

(** X9.  [wrapContentInPages] is idempotent, returns the empty string for
    the empty string only, and what it returns for any other content
    holds a page marker: [class="a4-page"] or [page-break]. *)
Theorem wrapContentInPages_idempotent (html : string) :
  wrapContentInPages (wrapContentInPages html) = wrapContentInPages html /\
  (wrapContentInPages html = "" <-> html = "") /\
  (html = "" \/
   includes (wrapContentInPages html) a4_page_class = true \/
   includes (wrapContentInPages html) "page-break" = true).
Proof.
  assert (Hwrapped : includes ("<div " ++ a4_page_class ++ ">" ++ html ++ "</div>")
                       a4_page_class = true)
    by (apply includes_later, includes_here).
  unfold wrapContentInPages.
  destruct (html =? "") eqn:E.
  - apply String.eqb_eq in E. subst html. repeat split; auto.
  - apply String.eqb_neq in E.
    destruct (includes html a4_page_class || includes html "page-break") eqn:Em.
    + apply String.eqb_neq in E. rewrite E, Em. apply String.eqb_neq in E.
      split; [reflexivity|]. split; [split; intros; congruence|].
      right. now apply orb_true_iff in Em.
    + rewrite Hwrapped. cbn [orb].
      split; [reflexivity|]. split; [split; [discriminate | congruence]|].
      right; left. exact Hwrapped.
Qed.

Lemma trim_blank (prompt : string) : trim prompt <> "" -> prompt <> "".
Proof. intros H ->. now apply H. Qed.

(** X10.  A submission from the home page, end to end.  For a prompt that
    is not blank, [handleSubmit] posts one request and the route handler
    answers it.  Either the handler has inserted a pending job with that
    prompt and left [processJob] detached for it, and the browser goes to
    [/document/<job id>] with no alert; or the handler has created
    nothing, and the browser stays, shows one alert, turns [loading] off
    and displays the fallback document it makes itself from the prompt:
    the answer of the handler then carries no job id, and its own fallback
    html is not what is displayed. *)
Theorem submission_end_to_end
  (typed : string) (e : Env) (w : World) (client_clock : nat -> Instant) (b : Browser) :
  trim typed <> "" ->
  uuid_generate_v4 e (tick w) <> "" ->
  exists reply w',
    POST (submission typed) e w = (Returned reply, w') /\
    let b' := handleSubmit typed (fun _ => received reply) client_clock b in
    posted b' = (posted b ++ [JSON_stringify (VObject [("prompt", VString typed)])])%list /\
    ((exists row,
         table w' = (table w ++ [row])%list /\
         prompt row = typed /\ status row = pending /\
         detached w' = (detached w ++ [(job_id row, VObject [("prompt", VString typed)])])%list /\
         location_href b' = Some ("/document/" ++ job_id row) /\
         alerts b' = alerts b /\
         loading (view b') = true)
     \/
     (table w' = table w /\ detached w' = detached w /\
      get_opt (payload reply) "jobId" = VUndefined /\
      location_href b' = location_href b /\
      alerts b' = (alerts b ++
        ["There was an error generating the document. A fallback document has been created."])%list /\
      loading (view b') = false /\
      generatedHtml (view b')
      = VString (submit_fallback_document typed (client_clock (clock_reads b))) /\
      generatedHtml (view b') <> get_opt (payload reply) "html")).
Proof.
  intros Hblank Huuid.
  assert (Hp : typed <> "") by now apply trim_blank.
  assert (Htrim : (trim typed =? "") = false) by now apply String.eqb_neq.
  assert (Hempty : (typed =? "") = false) by now apply String.eqb_neq.
  assert (Hid : (uuid_generate_v4 e (tick w) =? "") = false) by now apply String.eqb_neq.
  unfold POST, submission. rewrite try_catch_run. cbv zeta.
  cbn [searchParams_jobId request_json].
  rewrite bind_run. unfold lift at 1, ret at 1. cbv beta iota.
  rewrite bind_run. cbn [get lookup_field]. cbn [String.eqb Ascii.eqb Bool.eqb].
  unfold lift at 1, ret at 1. cbv beta iota.
  unfold or_else. cbn [truthy]. rewrite Hempty. cbn [negb].
  rewrite bind_run, createDocumentJob_run. cbv zeta. cbn [text_of_json].
  assert (Hfail : forall msg w1, table w1 = table w -> detached w1 = detached w ->
    exists reply w',
      (fallback <- createFallbackHtml "Error processing your request" "" ;;
       now <- new_Date ;;
       ret (NextResponse_json
              (VObject [("error", VString msg);
                        ("html", VString fallback);
                        ("projectId", VString ("error-" ++ string_of_Z (epoch_ms now)))])
              200)) e w1 = (Returned reply, w') /\
      let b' := handleSubmit typed (fun _ => received reply) client_clock b in
      posted b' = (posted b ++ [JSON_stringify (VObject [("prompt", VString typed)])])%list /\
      ((exists row,
           table w' = (table w ++ [row])%list /\
           prompt row = typed /\ status row = pending /\
           detached w' = (detached w ++ [(job_id row, VObject [("prompt", VString typed)])])%list /\
           location_href b' = Some ("/document/" ++ job_id row) /\
           alerts b' = alerts b /\
           loading (view b') = true)
       \/
       (table w' = table w /\ detached w' = detached w /\
        get_opt (payload reply) "jobId" = VUndefined /\
        location_href b' = location_href b /\
        alerts b' = (alerts b ++
          ["There was an error generating the document. A fallback document has been created."])%list /\
        loading (view b') = false /\
        generatedHtml (view b')
        = VString (submit_fallback_document typed (client_clock (clock_reads b))) /\
        generatedHtml (view b') <> get_opt (payload reply) "html"))).
  { intros msg w1 Ht Hd. do 2 eexists. split; [reflexivity|].
    cbv zeta. unfold handleSubmit. rewrite Htrim.
    cbn [received submitted_to ok http_status status_code NextResponse_json body_json
           payload negb andb Z.leb Z.compare Pos.compare Pos.compare_cont].
    cbn [get lookup_field String.eqb Ascii.eqb Bool.eqb truthy].
    cbn [posted location_href alerts view loading generatedHtml].
    split; [reflexivity|]. right.
    cbn [table detached advance]. repeat split; auto.
    cbn [get_opt get lookup_field String.eqb Ascii.eqb Bool.eqb].
    intros Heq. injection Heq as Heq. discriminate Heq. }
  destruct (db_unreachable e (tick w));
    [unfold throw at 1; apply Hfail; reflexivity|].
  destruct (existsb _ (table w));
    [unfold throw at 1; apply Hfail; reflexivity|].
  rewrite bind_run. unfold start_detached at 1. cbv beta iota.
  rewrite bind_run. unfold createLoadingHtml. rewrite bind_run.
  unfold new_Date at 1, ret. cbv beta iota.
  do 2 eexists. split; [reflexivity|].
  cbv zeta. unfold handleSubmit. rewrite Htrim.
  cbn [received submitted_to ok http_status status_code NextResponse_json body_json
         payload negb andb Z.leb Z.compare Pos.compare Pos.compare_cont].
  cbn [get lookup_field String.eqb Ascii.eqb Bool.eqb truthy job_id].
  rewrite Hid. cbn [negb posted location_href alerts view loading to_string].
  split; [reflexivity|]. left. eexists.
  cbn [table detached advance record_call set_table job_id].
  repeat split.
Qed.

(** A memo is submitted to a store that works. *)
Lemma submission_end_to_end_witness :
  trim "Write a memo" <> "" /\
  uuid_generate_v4 (sample_env [] answers_memo) (tick empty_world) <> "" /\
  location_href
    (handleSubmit "Write a memo"
       (fun _ => match fst (POST (submission "Write a memo")
                              (sample_env [] answers_memo) empty_world) with
                 | Returned reply => received reply
                 | _ => ReplyRejects (JsError "")
                 end)
       sample_instant fresh_browser)
  = Some ("/document/" ++ memo_id).
Proof.
  assert (H1 : trim "Write a memo" <> "") by discriminate.
  assert (H2 : uuid_generate_v4 (sample_env [] answers_memo) (tick empty_world) <> "")
    by discriminate.
  split; [exact H1|]. split; [exact H2|].
  destruct (submission_end_to_end "Write a memo" (sample_env [] answers_memo) empty_world
              sample_instant fresh_browser H1 H2) as (reply & w' & Hrun & _).
  rewrite Hrun. cbn [fst].
  assert (Hreply := f_equal fst Hrun). cbn [fst] in Hreply.
  injection Hreply as <-. reflexivity.
Defined.

(** ** The document page *)

(** X11.  [fetchJob] always returns, with [page_loading] off and the table
    untouched.  When the lookup reaches the database and finds the job,
    the page holds that job and, if its prompt is not empty, the single
    message of the user with that prompt.  In every other case, an
    unreachable database included, the page reports [Document not found]
    and keeps the job and the messages it had; [Failed to load document]
    is never reported. *)
Theorem fetchJob_outcome (jobId : string) (p : DocumentPage) (e : Env) (w : World) :
  exists p' w',
    fetchJob jobId p e w = (Returned p', w') /\
    table w' = table w /\
    page_loading p' = false /\
    ((exists job,
         db_unreachable e (tick w) = false /\ stored jobId (table w) = Some job /\
         documentJob p' = Some job /\
         page_error p' = page_error p /\
         messages p' = (if prompt job =? ""
                        then messages p
                        else [ {| role := user; content := prompt job |} ]))
     \/
     ((db_unreachable e (tick w) = true \/ stored jobId (table w) = None) /\
      documentJob p' = documentJob p /\
      page_error p' = Some "Document not found" /\
      messages p' = messages p)).
Proof.
  unfold fetchJob. cbv zeta. rewrite bind_run, try_catch_run, bind_run, getDocumentJob_run.
  destruct (db_unreachable e (tick w)) eqn:Edb;
    [do 2 eexists; split; [reflexivity|]; repeat split; right; repeat split; now left|].
  destruct (stored jobId (table w)) as [job|] eqn:Ej;
    [|do 2 eexists; split; [reflexivity|]; repeat split; right; repeat split; now right].
  destruct (prompt job =? "") eqn:Ep; cbn [negb];
    do 2 eexists; (split; [reflexivity|]); repeat split;
    left; exists job; rewrite Ep; repeat split.
Qed.

Section PagePollLoop.

Variable newJobId : string.
Variable currentMessages : list Message.
Variable replies : nat -> StatusReply.




End PagePollLoop.

